(** * StoryVerse recommendation core: collaborative, content-based and hybrid scoring

    A shallow embedding of [ai-services/src/recommendation/collaborative_filter.py].

    Conventions of the embedding.
    - Python floats (ratings, similarities, scores) are exact rationals [Q];
      rounding, NaN and infinities are outside the model.
    - A raised exception is the [Raise] branch of [result]; the class of the
      exception is a constructor of [exn].
    - An object mutated by a method ([self]) is a record passed in and
      returned; a method that can raise after a partial update returns the
      state it leaves behind together with its outcome.
    - The numerical routines of scikit-learn and numpy (truncated SVD,
      cosine similarity, TF-IDF, argsort) and the social analyzer, whose class
      the module names without defining, are the fields of [Externals]. *)

From Stdlib Require Import List String Ascii Bool ZArith QArith Qabs Lia Lqa.
From Stdlib Require Import Sorting.Sorted Permutation OrderedTypeEx.
Import ListNotations.

Local Open Scope string_scope.
Local Open Scope Q_scope.

(** ** Python values and control *)

Module Py.

(** Exception classes the module can raise, directly or through pandas and
    numpy. *)
Inductive exn : Type :=
| ValueError (msg : string)
| KeyError (key : string)
| IndexError
| AttributeError (msg : string)
| TypeError (msg : string)
| NameError (msg : string)
| ZeroDivisionError.

Inductive result (A : Type) : Type :=
| Ok (a : A)
| Raise (e : exn).
Arguments Ok {A} a.
Arguments Raise {A} e.

Definition bind {A B : Type} (c : result A) (k : A -> result B) : result B :=
  match c with
  | Ok a => k a
  | Raise e => Raise e
  end.

Definition is_ok {A : Type} (c : result A) : bool :=
  match c with Ok _ => true | Raise _ => false end.

(** [for x in xs: acc = body acc x], stopping at the first exception. *)
Fixpoint for_each {A S : Type} (body : S -> A -> result S) (xs : list A) (acc : S)
  : result S :=
  match xs with
  | [] => Ok acc
  | x :: xs' => bind (body acc x) (for_each body xs')
  end.

(** [acc = []; for x in xs: (append f x, or skip)]: the elements [f] keeps,
    in the order of [xs]; the first exception ends the loop. *)
Fixpoint collect {A B : Type} (f : A -> result (option B)) (xs : list A)
  : result (list B) :=
  match xs with
  | [] => Ok []
  | x :: xs' =>
      bind (f x) (fun o =>
      bind (collect f xs') (fun rest =>
      Ok (match o with Some y => y :: rest | None => rest end)))
  end.

(** Comparisons on floats. *)
Definition Qlt_bool (a b : Q) : bool := negb (Qle_bool b a).

(** [max(a, b)]: the first argument unless the second is strictly larger. *)
Definition max (a b : Q) : Q := if Qlt_bool a b then b else a.

(** [a / b], which fails on a zero divisor. *)
Definition div (a b : Q) : result Q :=
  if Qeq_bool b 0 then Raise ZeroDivisionError else Ok (a / b).

(** Slice bounds: a negative bound counts from the end, and the bound is
    then clamped to the list. *)
Definition clamp (len i : Z) : nat :=
  Z.to_nat (Z.max 0 (Z.min len (if (i <? 0)%Z then (i + len)%Z else i))).

(** [l[lo:hi]] *)
Definition slice {A : Type} (lo hi : Z) (l : list A) : list A :=
  let len := Z.of_nat (List.length l) in
  let a := clamp len lo in
  let b := clamp len hi in
  firstn (b - a)%nat (skipn a l).

(** [l[:n]] *)
Definition slice_to {A : Type} (n : Z) (l : list A) : list A :=
  firstn (clamp (Z.of_nat (List.length l)) n) l.

(** [l.sort(key=key, reverse=True)]: the sort is stable, and with
    [reverse=True] elements of equal key still keep their original order.
    The element taken from the front of the list is put before the first
    element whose key is not larger than its own. *)
Fixpoint insert_desc {A : Type} (key : A -> Q) (x : A) (l : list A) : list A :=
  match l with
  | [] => [x]
  | y :: l' =>
      if Qlt_bool (key x) (key y) then y :: insert_desc key x l' else x :: l
  end.

Definition sort_desc {A : Type} (key : A -> Q) (l : list A) : list A :=
  fold_right (insert_desc key) [] l.

(** [x in l] for a list of strings. *)
Definition mem (x : string) (l : list string) : bool :=
  existsb (String.eqb x) l.

(** A [dict] with string keys, in insertion order. *)
Definition dict (V : Type) : Type := list (string * V).

Fixpoint dict_get {V : Type} (d : dict V) (k : string) (default : V) : V :=
  match d with
  | [] => default
  | (k', v) :: d' => if String.eqb k k' then v else dict_get d' k default
  end.

(** [d[k] = v]: an existing key keeps its place, a new key goes last. *)
Fixpoint dict_set {V : Type} (d : dict V) (k : string) (v : V) : dict V :=
  match d with
  | [] => [(k, v)]
  | (k', v') :: d' =>
      if String.eqb k k' then (k', v) :: d' else (k', v') :: dict_set d' k v
  end.

End Py.

Import Py.

Notation "x <- c ;; k" := (Py.bind c (fun x => k))
  (at level 61, c at next level, right associativity).

(** ** pandas and numpy containers *)

Module Pandas.

(** A row of the ratings table: columns [user_id], [book_id], [rating]. *)
Record Rating : Type := mkRating {
  user_id : string;
  book_id : string;
  rating : Q
}.

(** A frame with row labels, column labels and one row of cells per row
    label. *)
Record Frame (C : Type) : Type := mkFrame {
  index : list string;
  columns : list string;
  values : list (list C)
}.
Arguments mkFrame {C} _ _ _.
Arguments index {C} _.
Arguments columns {C} _.
Arguments values {C} _.

Definition DataFrame : Type := Frame Q.

(** One row of a frame, labelled by the frame's columns. *)
Record Series : Type := mkSeries {
  labels : list string;
  data : list Q
}.

Fixpoint position (label : string) (idx : list string) : option nat :=
  match idx with
  | [] => None
  | l :: idx' =>
      if String.eqb label l then Some O
      else option_map S (position label idx')
  end.

(** [idx.get_loc(label)] on an index without repeated labels, as the axes
    of a pivoted frame are; [index_get_loc] below is the method on any
    index. *)
Definition get_loc (idx : list string) (label : string) : result nat :=
  match position label idx with
  | Some i => Ok i
  | None => Raise (KeyError label)
  end.

(** What [idx.get_loc(label)] returns on an index that may repeat labels:
    the position of a label that occurs once; for a label that occurs
    several times the slice of its positions when the index is in
    ascending order, and otherwise a boolean mask over the index. *)
Inductive loc : Type :=
| At (i : nat)
| Span (start stop : nat)
| Mask (bits : list bool).

Fixpoint occurrences (label : string) (idx : list string) : nat :=
  match idx with
  | [] => O
  | l :: idx' =>
      if String.eqb label l then S (occurrences label idx')
      else occurrences label idx'
  end.

(** [idx.is_monotonic_increasing]: no label is followed by a smaller one. *)
Fixpoint monotonic_increasing (idx : list string) : bool :=
  match idx with
  | [] => true
  | x :: rest =>
      match rest with
      | [] => true
      | y :: _ =>
          match String.compare x y with
          | Gt => false
          | _ => monotonic_increasing rest
          end
      end
  end.

(** [idx.get_loc(label)] on any index. *)
Definition index_get_loc (idx : list string) (label : string) : result loc :=
  match position label idx with
  | None => Raise (KeyError label)
  | Some first =>
      let n := occurrences label idx in
      if Nat.eqb n 1 then Ok (At first)
      else if monotonic_increasing idx then Ok (Span first (first + n))
      else Ok (Mask (map (String.eqb label) idx))
  end.

(** [df.iloc[i]] for a position [i >= 0]. *)
Definition iloc (df : DataFrame) (i : nat) : result Series :=
  match nth_error (values df) i with
  | Some row => Ok (mkSeries (columns df) row)
  | None => Raise IndexError
  end.

(** [s[label]] *)
Definition series_get (s : Series) (label : string) : result Q :=
  i <- get_loc (labels s) label ;;
  match nth_error (data s) i with
  | Some v => Ok v
  | None => Raise IndexError
  end.

(** Labels of a pivoted axis: each label once, in ascending order. *)
Fixpoint insert_label (s : string) (l : list string) : list string :=
  match l with
  | [] => [s]
  | y :: l' =>
      match String.compare s y with
      | Lt => s :: l
      | Eq => l
      | Gt => y :: insert_label s l'
      end
  end.

Definition sorted_unique (l : list string) : list string :=
  fold_right insert_label [] l.

(** Ascending order of labels: the order of Python strings. *)
Definition label_lt (a b : string) : Prop := String.compare a b = Lt.

Definition same_cell (u b : string) (r : Rating) : bool :=
  String.eqb (user_id r) u && String.eqb (book_id r) b.

Fixpoint has_duplicates (rs : list Rating) : bool :=
  match rs with
  | [] => false
  | r :: rs' =>
      existsb (same_cell (user_id r) (book_id r)) rs' || has_duplicates rs'
  end.

(** [ratings.pivot(index='user_id', columns='book_id', values='rating')]:
    a cell without a row in the table is missing ([None]); two rows for
    one cell are refused. *)
Definition pivot (rs : list Rating) : result (Frame (option Q)) :=
  if has_duplicates rs
  then Raise (ValueError "Index contains duplicate entries, cannot reshape")
  else
    let users := sorted_unique (map user_id rs) in
    let books := sorted_unique (map book_id rs) in
    Ok (mkFrame users books
          (map (fun u =>
                  map (fun b => option_map rating (find (same_cell u b) rs)) books)
               users)).

(** [df.fillna(v)] *)
Definition fillna (v : Q) (df : Frame (option Q)) : DataFrame :=
  mkFrame (index df) (columns df)
    (map (map (fun c => match c with Some x => x | None => v end)) (values df)).

End Pandas.

Module Numpy.

Definition matrix : Type := list (list Q).

(** [m[i]] and [v[i]] for a position [i >= 0]. *)
Definition row_at (m : matrix) (i : nat) : result (list Q) :=
  match nth_error m i with
  | Some row => Ok row
  | None => Raise IndexError
  end.

Definition item_at (v : list Q) (i : nat) : result Q :=
  match nth_error v i with
  | Some x => Ok x
  | None => Raise IndexError
  end.

(** The value of an indexing expression: a number, a one-dimensional or a
    two-dimensional array. *)
Inductive ndarray : Type :=
| Scalar (x : Q)
| Vector (v : list Q)
| Matrix2 (m : matrix).

Definition elements (a : ndarray) : list Q :=
  match a with
  | Scalar x => [x]
  | Vector v => v
  | Matrix2 m => List.concat m
  end.

(** The entries a boolean mask selects. *)
Fixpoint select {A : Type} (bits : list bool) (l : list A) : list A :=
  match bits, l with
  | b :: bits', x :: l' => if b then x :: select bits' l' else select bits' l'
  | _, _ => []
  end.

(** Indexing along the first axis: a position gives one entry and fails
    out of range, a slice is clipped to the axis, a mask must be as long as
    the axis. *)
Definition pick {A : Type} (l : list A) (k : Pandas.loc)
           (one : A -> ndarray) (many : list A -> ndarray) : result ndarray :=
  match k with
  | Pandas.At i =>
      match nth_error l i with
      | Some x => Ok (one x)
      | None => Raise IndexError
      end
  | Pandas.Span start stop => Ok (many (firstn (stop - start) (skipn start l)))
  | Pandas.Mask bits =>
      if Nat.eqb (List.length bits) (List.length l)
      then Ok (many (select bits l))
      else Raise IndexError
  end.

(** [a[k]] *)
Definition getitem (a : ndarray) (k : Pandas.loc) : result ndarray :=
  match a with
  | Scalar _ => Raise IndexError
  | Vector v => pick v k Scalar Vector
  | Matrix2 m => pick m k Vector Matrix2
  end.

(** The element of an array that holds exactly one. An array enters a
    comparison such as [a > acc] elementwise, and the result has a truth
    value only then (NumPy 2.2 and later also refuse the empty array). *)
Definition only_element (a : ndarray) : result Q :=
  match elements a with
  | [x] => Ok x
  | [] =>
      Raise (ValueError "The truth value of an empty array is ambiguous. Use `array.size > 0` to check that an array is not empty.")
  | _ :: _ :: _ =>
      Raise (ValueError "The truth value of an array with more than one element is ambiguous. Use a.any() or a.all()")
  end.

(** [max(acc, a)] for a number [acc]; an array of one element stands for
    that element. *)
Definition max_with (acc : Q) (a : ndarray) : result Q :=
  x <- only_element a ;;
  Ok (Py.max acc x).

(** [m.T] for a matrix with at least one row. *)
Fixpoint transpose (m : matrix) : matrix :=
  match m with
  | [] => []
  | [row] => map (fun x => [x]) row
  | row :: rest => map (fun p => fst p :: snd p) (combine row (transpose rest))
  end.

End Numpy.

Import Pandas Numpy.

(** ** Requests and candidates *)

(** The [user_profile] dict; a key that is absent reads as the empty list
    ([user_profile.get(key, [])]). *)
Record UserProfile : Type := mkProfile {
  preferred_genres : list string;
  favorite_authors : list string;
  reading_history : list string
}.

(** [{'book_id', 'predicted_rating', 'recommendation_type'}] *)
Record CollabRec : Type := mkCollabRec {
  collab_book_id : string;
  predicted_rating : Q;
  collab_type : string
}.

(** [{'book_id', 'content_score', 'recommendation_type'}] *)
Record ContentRec : Type := mkContentRec {
  content_book_id : string;
  content_score : Q;
  content_type : string
}.

(** The entries of the social list, of which the engine reads ['book_id']
    and ['social_score']. *)
Record SocialRec : Type := mkSocialRec {
  social_book_id : string;
  social_score : Q
}.

(** [{'book_id', 'combined_score', 'recommendation_type'}] *)
Record HybridRec : Type := mkHybridRec {
  hybrid_book_id : string;
  combined_score : Q;
  hybrid_type : string
}.

(** [TfidfVectorizer(max_features=5000, stop_words='english', ngram_range=(1, 2))] *)
Record TfidfVectorizer : Type := mkTfidf {
  max_features : Z;
  stop_words : string;
  ngram_range : Z * Z
}.

(** [TruncatedSVD(n_components=..., random_state=...)]; [components_] is set
    by a fit. *)
Record TruncatedSVD : Type := mkSVD {
  svd_n_components : Z;
  random_state : Z;
  components_ : option matrix
}.

(** ** Library routines and the social analyzer

    [svd_fit] is what [TruncatedSVD.fit_transform] computes from the
    estimator's parameters and the data: the transformed rows and
    [components_]. An integer [random_state] seeds a fresh generator at every
    fit, so the outcome depends on nothing else. [get_social_recommendations]
    is the method of [SocialMediaAnalyzer] the engine calls. *)
Class Externals : Type := {
  svd_fit : Z -> Z -> matrix -> result (matrix * matrix);
  cosine_similarity : matrix -> result matrix;
  argsort : list Q -> list nat;
  tfidf_fit_transform : TfidfVectorizer -> list string -> result matrix;
  get_social_recommendations : UserProfile -> Z -> result (list SocialRec)
}.

(** ** Collaborative filter *)

Module CollaborativeFilter.

Record t : Type := mk {
  n_components : Z;
  svd : TruncatedSVD;
  user_item_matrix : option DataFrame;
  user_similarity : option matrix;
  item_similarity : option matrix
}.

(** [__init__] *)
Definition init (n_components : Z) : t :=
  mk n_components (mkSVD n_components 42 None) None None None.

Section Methods.
Context {E : Externals}.

(** [self.svd.fit_transform(X)] *)
Definition fit_transform (s : TruncatedSVD) (X : matrix)
  : result (TruncatedSVD * matrix) :=
  r <- svd_fit (svd_n_components s) (random_state s) X ;;
  Ok (mkSVD (svd_n_components s) (random_state s) (Some (snd r)), fst r).

Definition train (self : t) (ratings_data : list Rating) : t * result unit :=
  match pivot ratings_data with
  | Raise e => (self, Raise e)
  | Ok pivoted =>
      let m := fillna 0 pivoted in
      let self := mk (n_components self) (svd self) (Some m)
                    (user_similarity self) (item_similarity self) in
      match fit_transform (svd self) (values m) with
      | Raise e => (self, Raise e)
      | Ok (fitted, user_factors) =>
          let self := mk (n_components self) fitted (user_item_matrix self)
                        (user_similarity self) (item_similarity self) in
          let item_factors :=
            match components_ fitted with
            | Some c => transpose c
            | None => []
            end in
          match cosine_similarity user_factors with
          | Raise e => (self, Raise e)
          | Ok us =>
              let self := mk (n_components self) (svd self)
                            (user_item_matrix self) (Some us)
                            (item_similarity self) in
              match cosine_similarity item_factors with
              | Raise e => (self, Raise e)
              | Ok its =>
                  (mk (n_components self) (svd self) (user_item_matrix self)
                     (user_similarity self) (Some its), Ok tt)
              end
          end
      end
  end.

Definition get_similar_users (self : t) (user_idx : nat) (top_k : Z)
  : result (list (nat * Q)) :=
  match user_similarity self with
  | None => Raise (TypeError "'NoneType' object is not subscriptable")
  | Some us =>
      similarities <- row_at us user_idx ;;
      let similar_indices :=
        slice 1 (top_k + 1) (rev (argsort similarities)) in
      collect (fun idx => s <- item_at similarities idx ;; Ok (Some (idx, s)))
              similar_indices
  end.

(** One turn of the loop of [predict_rating] on the pair
    [(weighted_sum, similarity_sum)]. *)
Definition predict_step (self : t) (book_id : string)
           (sums : Q * Q) (neighbour : nat * Q) : result (Q * Q) :=
  let (weighted_sum, similarity_sum) := sums in
  let (similar_user_idx, similarity) := neighbour in
  match user_item_matrix self with
  | None => Raise (AttributeError "'NoneType' object has no attribute 'iloc'")
  | Some m =>
      row <- iloc m similar_user_idx ;;
      rating <- series_get row book_id ;;
      if Qlt_bool 0 rating
      then Ok (weighted_sum + similarity * rating,
               similarity_sum + Qabs similarity)
      else Ok (weighted_sum, similarity_sum)
  end.

Definition predict_rating (self : t) (user_idx : nat) (book_id : string)
           (similar_users : list (nat * Q)) : result Q :=
  sums <- for_each (predict_step self book_id) similar_users (0, 0) ;;
  let (weighted_sum, similarity_sum) := sums in
  if Qeq_bool similarity_sum 0 then Ok 0
  else div weighted_sum similarity_sum.

(** One turn of the loop over the columns in
    [get_user_recommendations]: the candidate for a book the user has
    not rated. *)
Definition candidate (self : t) (user_idx : nat) (user_ratings : Series)
           (similar_users : list (nat * Q)) (book_id : string)
  : result (option CollabRec) :=
  r <- series_get user_ratings book_id ;;
  if Qeq_bool r 0
  then p <- predict_rating self user_idx book_id similar_users ;;
       Ok (Some (mkCollabRec book_id p "collaborative"))
  else Ok None.

Definition get_user_recommendations (self : t) (user_id : string)
           (n_recommendations : Z) : result (list CollabRec) :=
  match user_item_matrix self with
  | None => Raise (ValueError "Model not trained yet")
  | Some m =>
      user_idx <- get_loc (index m) user_id ;;
      user_ratings <- iloc m user_idx ;;
      similar_users <- get_similar_users self user_idx 50 ;;
      recommendations <-
        collect (candidate self user_idx user_ratings similar_users)
                (columns m) ;;
      Ok (slice_to n_recommendations
            (sort_desc predicted_rating recommendations))
  end.

End Methods.

End CollaborativeFilter.

(** ** Content-based filter *)

Module Catalog.

(** A row of the catalog: columns [book_id], [title], [author], [genre],
    [description]; a text cell may be missing. *)
Record Book : Type := mkBook {
  book_id : string;
  title : option string;
  author : option string;
  genre : option string;
  description : option string
}.

(** [cell.fillna('')] *)
Definition text (c : option string) : string :=
  match c with Some s => s | None => "" end.

(** [cell in names]: a missing cell is no string of the list. *)
Definition cell_in (c : option string) (names : list string) : bool :=
  match c with Some s => mem s names | None => false end.

Definition combined_features (b : Book) : string :=
  text (title b) ++ " " ++ text (author b) ++ " " ++ text (genre b)
    ++ " " ++ text (description b).

End Catalog.

Module ContentBasedFilter.

Import Catalog.

(** [book_features] is the catalog indexed by [book_id], rows in the order
    of the input. *)
Record t : Type := mk {
  book_features : option (list Book);
  tfidf_vectorizer : option TfidfVectorizer;
  content_similarity : option matrix
}.

(** [__init__] *)
Definition init : t := mk None None None.

Section Methods.
Context {E : Externals}.

Definition train (self : t) (books_data : list Book) : t * result unit :=
  let vectorizer := mkTfidf 5000 "english" (1, 2)%Z in
  let self := mk (book_features self) (Some vectorizer)
                (content_similarity self) in
  match tfidf_fit_transform vectorizer (map combined_features books_data) with
  | Raise e => (self, Raise e)
  | Ok tfidf_matrix =>
      match cosine_similarity tfidf_matrix with
      | Raise e => (self, Raise e)
      | Ok sim =>
          (mk (Some books_data) (tfidf_vectorizer self) (Some sim), Ok tt)
      end
  end.

(** One turn of the loop over [reading_history] on [max_similarity]. *)
Definition similarity_step (self : t) (ids : list string) (book_idx : loc)
           (max_similarity : Q) (read_book_id : string) : result Q :=
  if mem read_book_id ids then
    read_book_idx <- index_get_loc ids read_book_id ;;
    match content_similarity self with
    | None => Raise (TypeError "'NoneType' object is not subscriptable")
    | Some cs =>
        rows <- getitem (Matrix2 cs) book_idx ;;
        similarity <- getitem rows read_book_idx ;;
        max_with max_similarity similarity
    end
  else Ok max_similarity.

Definition calculate_content_score (self : t) (book_data : Book)
           (user_profile : UserProfile) : result Q :=
  let score := 0 in
  let score :=
    if cell_in (genre book_data) (preferred_genres user_profile)
    then score + 0.4 else score in
  let score :=
    if cell_in (author book_data) (favorite_authors user_profile)
    then score + 0.3 else score in
  match reading_history user_profile with
  | [] => Ok score
  | _ :: _ =>
      match book_features self with
      | None =>
          Raise (AttributeError "'NoneType' object has no attribute 'index'")
      | Some bf =>
          let ids := map book_id bf in
          book_idx <- index_get_loc ids (book_id book_data) ;;
          max_similarity <-
            for_each (similarity_step self ids book_idx)
                     (reading_history user_profile) 0 ;;
          Ok (score + 0.3 * max_similarity)
      end
  end.

(** One turn of the loop over the catalog in
    [get_content_recommendations]: the candidate for a book outside the
    reading history. *)
Definition candidate (self : t) (user_profile : UserProfile)
           (book_data : Book) : result (option ContentRec) :=
  if negb (mem (book_id book_data) (reading_history user_profile))
  then score <- calculate_content_score self book_data user_profile ;;
       Ok (Some (mkContentRec (book_id book_data) score "content_based"))
  else Ok None.

Definition get_content_recommendations (self : t) (user_profile : UserProfile)
           (n_recommendations : Z) : result (list ContentRec) :=
  match book_features self with
  | None =>
      Raise (AttributeError "'NoneType' object has no attribute 'iterrows'")
  | Some bf =>
      recommendations <- collect (candidate self user_profile) bf ;;
      Ok (slice_to n_recommendations
            (sort_desc content_score recommendations))
  end.

End Methods.

End ContentBasedFilter.

(** ** Hybrid engine *)

Module HybridRecommendationEngine.

Record t : Type := mk {
  collaborative_filter : CollaborativeFilter.t;
  content_filter : ContentBasedFilter.t
}.

(** [__init__]: both filters untrained, the collaborative one with the
    default rank; then the analyzer is built from [SocialMediaAnalyzer], a
    name the module neither defines nor imports. Unless that name has been
    bound in the module from outside, the construction stops there and no
    engine exists. The analyzer itself is the method of [Externals]. *)
Definition init (analyzer_bound : bool) : result t :=
  let collaborative_filter := CollaborativeFilter.init 50 in
  let content_filter := ContentBasedFilter.init in
  if analyzer_bound then Ok (mk collaborative_filter content_filter)
  else Raise (NameError "name 'SocialMediaAnalyzer' is not defined").

(** [book_scores[book_id] = book_scores.get(book_id, 0) + weight * score] *)
Definition accumulate (weight : Q) (book_scores : dict Q)
           (book_id : string) (score : Q) : dict Q :=
  dict_set book_scores book_id (dict_get book_scores book_id 0 + weight * score).

Definition combine_recommendations (collab_recs : list CollabRec)
           (content_recs : list ContentRec) (social_recs : list SocialRec)
  : list HybridRec :=
  let book_scores : dict Q := [] in
  let book_scores :=
    fold_left (fun d rec =>
                 accumulate 0.4 d (collab_book_id rec) (predicted_rating rec))
              collab_recs book_scores in
  let book_scores :=
    fold_left (fun d rec =>
                 accumulate 0.35 d (content_book_id rec) (content_score rec))
              content_recs book_scores in
  let book_scores :=
    fold_left (fun d rec =>
                 accumulate 0.25 d (social_book_id rec) (social_score rec))
              social_recs book_scores in
  let final_recommendations :=
    map (fun item => mkHybridRec (fst item) (snd item) "hybrid") book_scores in
  sort_desc combined_score final_recommendations.

Section Methods.
Context {E : Externals}.

Definition get_recommendations (self : t) (user_id : string)
           (user_profile : UserProfile) (n_recommendations : Z)
  : result (list HybridRec) :=
  collab_recs <-
    CollaborativeFilter.get_user_recommendations (collaborative_filter self)
      user_id (n_recommendations * 2)%Z ;;
  content_recs <-
    ContentBasedFilter.get_content_recommendations (content_filter self)
      user_profile (n_recommendations * 2)%Z ;;
  social_recs <- get_social_recommendations user_profile
                   (n_recommendations * 2)%Z ;;
  let combined_recs :=
    combine_recommendations collab_recs content_recs social_recs in
  Ok (slice_to n_recommendations combined_recs).

End Methods.

End HybridRecommendationEngine.

(** ** Sample data

    The routines of [Sample.externals] are small exact stand-ins: a rank-[k]
    projection on the first [k] coordinates for the SVD, dot products for the
    similarity, a stable ascending sort of positions for [argsort], one
    constant feature for TF-IDF, and a social analyzer without candidates. *)

Module Sample.

Definition dot (a b : list Q) : Q :=
  fold_right Qplus 0 (map (fun p => fst p * snd p) (combine a b)).

Fixpoint insert_idx (v : list Q) (i : nat) (l : list nat) : list nat :=
  match l with
  | [] => [i]
  | j :: l' =>
      if Qlt_bool (nth j v 0) (nth i v 0) then j :: insert_idx v i l' else i :: l
  end.

Definition unit_row (n i : nat) : list Q :=
  map (fun j => if Nat.eqb i j then 1 else 0) (seq 0 n).

Definition externals : Externals := {|
  svd_fit := fun k _ X =>
    let k := Z.to_nat k in
    Ok (map (firstn k) X,
        map (unit_row (List.length (hd [] X))) (seq 0 k));
  cosine_similarity := fun X => Ok (map (fun a => map (dot a) X) X);
  argsort := fun v => fold_right (insert_idx v) [] (seq 0 (List.length v));
  tfidf_fit_transform := fun _ docs => Ok (map (fun _ => [1]) docs);
  get_social_recommendations := fun _ _ => Ok []
|}.

(** Ratings of two users on three books. *)
Definition ratings : list Rating :=
  [ mkRating "u1" "i1" 5; mkRating "u1" "i2" 1;
    mkRating "u2" "i1" 4; mkRating "u2" "i3" 5 ].

Definition catalog : list Catalog.Book :=
  [ Catalog.mkBook "i3" (Some "Persuasion") (Some "Austen") (Some "Romance") None;
    Catalog.mkBook "i1" (Some "Emma") (Some "Austen") (Some "Romance") None;
    Catalog.mkBook "i2" (Some "Dune") (Some "Herbert") (Some "SciFi") None ].

Definition collab : CollaborativeFilter.t :=
  fst (CollaborativeFilter.train (E := externals) (CollaborativeFilter.init 1) ratings).

(** The same routines with a factorization that refuses every rank, as the
    library does for a rank above the number of columns. *)
Definition strict_externals : Externals := {|
  svd_fit := fun _ _ _ => Raise (ValueError "n_components must be <= n_features");
  cosine_similarity := cosine_similarity (Externals := externals);
  argsort := argsort (Externals := externals);
  tfidf_fit_transform := tfidf_fit_transform (Externals := externals);
  get_social_recommendations := get_social_recommendations (Externals := externals)
|}.

(** Ratings that give the first user two candidates of equal predicted
    rating. *)
Definition tied_ratings : list Rating :=
  [ mkRating "u2" "i3" 3; mkRating "u2" "i2" 3;
    mkRating "u2" "i1" 4; mkRating "u1" "i1" 5 ].

(** Ratings in which the first user gave a book the rating 0. *)
Definition zero_ratings : list Rating :=
  [ mkRating "u1" "i1" 5; mkRating "u1" "i2" 0;
    mkRating "u2" "i1" 4; mkRating "u2" "i2" 3 ].

Definition zero_collab : CollaborativeFilter.t :=
  fst (CollaborativeFilter.train (E := externals) (CollaborativeFilter.init 1)
         zero_ratings).

Definition tied_collab : CollaborativeFilter.t :=
  fst (CollaborativeFilter.train (E := externals) (CollaborativeFilter.init 1)
         tied_ratings).

Definition content : ContentBasedFilter.t :=
  fst (ContentBasedFilter.train (E := externals) ContentBasedFilter.init catalog).

Definition engine : HybridRecommendationEngine.t :=
  HybridRecommendationEngine.mk collab content.

(** The same routines with a vectorizer that refuses an empty catalog, as
    the library does for an empty vocabulary. *)
Definition empty_vocabulary_externals : Externals := {|
  svd_fit := svd_fit (Externals := externals);
  cosine_similarity := cosine_similarity (Externals := externals);
  argsort := argsort (Externals := externals);
  tfidf_fit_transform := fun v docs =>
    match docs with
    | [] => Raise (ValueError "empty vocabulary")
    | _ :: _ => tfidf_fit_transform (Externals := externals) v docs
    end;
  get_social_recommendations := get_social_recommendations (Externals := externals)
|}.

Definition romance_reader : UserProfile := mkProfile ["Romance"] [] [].

(** A catalog that lists one book id twice (two editions of a title), and
    the content filter trained on it. *)
Definition reissued_catalog : list Catalog.Book :=
  [ Catalog.mkBook "i1" (Some "Emma") (Some "Austen") (Some "Romance") None;
    Catalog.mkBook "i1" (Some "Emma, annotated") (Some "Austen") (Some "Romance")
      None;
    Catalog.mkBook "i2" (Some "Dune") (Some "Herbert") (Some "SciFi") None ].

Definition reissued_content : ContentBasedFilter.t :=
  fst (ContentBasedFilter.train (E := externals) ContentBasedFilter.init
         reissued_catalog).

Definition read_i1 : UserProfile := mkProfile [] [] ["i1"].

Definition read_i3 : UserProfile := mkProfile ["Romance"] [] ["i3"].

End Sample.


(** ** Vocabulary of the statements *)

(** [m.loc[user, book]]: the cell of the training matrix. *)
Definition rating_at (m : DataFrame) (user book : string) : result Q :=
  i <- get_loc (index m) user ;;
  row <- iloc m i ;;
  series_get row book.

(** The stored rating of the neighbour at a row position. *)
Definition neighbour_rating (m : DataFrame) (book : string) (neighbour : nat * Q)
  : result Q :=
  row <- iloc m (fst neighbour) ;;
  series_get row book.

(** Neighbours [(position, similarity)] paired with their stored rating of
    the item, kept when that rating is positive. *)
Definition rated_neighbours (similar : list (nat * Q)) (ratings : list Q)
  : list ((nat * Q) * Q) :=
  filter (fun p => Qlt_bool 0 (snd p)) (combine similar ratings).

(** [sum(sim_i * rating_i)] and [sum(|sim_i|)] over such neighbours. *)
Definition weighted_total (rated : list ((nat * Q) * Q)) : Q :=
  fold_right Qplus 0 (map (fun p => snd (fst p) * snd p) rated).

Definition similarity_total (rated : list ((nat * Q) * Q)) : Q :=
  fold_right Qplus 0 (map (fun p => Qabs (snd (fst p))) rated).

(** The test [user_ratings[book_id] == 0] of the recommendation loop, on
    the cell of the training matrix. *)
Definition unrated (m : DataFrame) (user book : string) : bool :=
  match rating_at m user book with
  | Ok r => Qeq_bool r 0
  | Raise _ => false
  end.

(** Order of a ranked list: scores descend, and two entries of equal
    score stand in the relation [T]. *)
Definition desc_then {A : Type} (key : A -> Q) (T : A -> A -> Prop) (x y : A)
  : Prop :=
  key y < key x \/ (key y == key x /\ T x y).


(** [content_similarity[get_loc(a)][get_loc(b)]]: the content similarity of
    two catalog items. *)
Definition content_similarity_at (cs : matrix) (ids : list string) (a b : string)
  : result Q :=
  i <- get_loc ids a ;;
  j <- get_loc ids b ;;
  row <- row_at cs i ;;
  item_at row j.

(** A content filter after a successful training on a catalog, with the
    similarity matrix the training stored: square over the catalog and
    without negative entries (TF-IDF weights are not negative, so neither is
    a cosine of two rows). *)
Definition trained_content {E : Externals} (self : ContentBasedFilter.t)
           (bf : list Catalog.Book) (cs : matrix) : Prop :=
  (exists before, ContentBasedFilter.train before bf = (self, Ok tt)) /\
  ContentBasedFilter.content_similarity self = Some cs /\
  List.length cs = List.length bf /\
  Forall (fun row => List.length row = List.length bf /\ Forall (Qle 0) row) cs.

(** [1] when the condition holds, [0] otherwise. *)
Definition indicator (b : bool) : Q := if b then 1 else 0.

(** The sum of the scores a candidate list holds for an item: the score of
    its entry when the list has one entry for the item, 0 when it has none. *)
Definition score_sum {A : Type} (id : A -> string) (score : A -> Q)
           (item : string) (l : list A) : Q :=
  fold_right Qplus 0 (map score (filter (fun r => String.eqb (id r) item) l)).

(** Position of the first occurrence of a label (the length of the list when
    there is none), and the order of first occurrence. *)
Fixpoint first_index (k : string) (l : list string) : nat :=
  match l with
  | [] => O
  | x :: l' => if String.eqb k x then O else S (first_index k l')
  end.

Definition first_seen_before (ids : list string) (a b : string) : Prop :=
  (first_index a ids < first_index b ids)%nat.

(** The labels of a list in order of first occurrence, each once. *)
Fixpoint keep_first (l : list string) : list string :=
  match l with
  | [] => []
  | x :: l' => x :: filter (fun y => negb (String.eqb y x)) (keep_first l')
  end.

(** The updates of the three loops of [combine_recommendations], in order:
    item and weighted score. *)
Definition weighted_entries (collab_recs : list CollabRec)
           (content_recs : list ContentRec) (social_recs : list SocialRec)
  : list (string * Q) :=
  map (fun r => (collab_book_id r, 0.4 * predicted_rating r)) collab_recs
  ++ map (fun r => (content_book_id r, 0.35 * content_score r)) content_recs
  ++ map (fun r => (social_book_id r, 0.25 * social_score r)) social_recs.

Definition add_entry (d : dict Q) (e : string * Q) : dict Q :=
  dict_set d (fst e) (dict_get d (fst e) 0 + snd e).

(** The sum of the updates for an item. *)
Definition entry_total (item : string) (es : list (string * Q)) : Q :=
  score_sum fst snd item es.

(** What one reading-history item contributes to [max_similarity]: its
    similarity to the scored book when it is in the catalog, nothing
    otherwise. *)
Definition history_similarity (self : ContentBasedFilter.t) (ids : list string)
           (book_idx : loc) (read_book_id : string) : result (option Q) :=
  if mem read_book_id ids then
    read_book_idx <- index_get_loc ids read_book_id ;;
    match ContentBasedFilter.content_similarity self with
    | None => Raise (TypeError "'NoneType' object is not subscriptable")
    | Some cs =>
        rows <- getitem (Matrix2 cs) book_idx ;;
        similarity <- getitem rows read_book_idx ;;
        x <- only_element similarity ;;
        Ok (Some x)
    end
  else Ok None.

(** A profile with another reading history. *)
Definition with_history (profile : UserProfile) (history : list string)
  : UserProfile :=
  mkProfile (preferred_genres profile) (favorite_authors profile) history.

(** * Properties *)

Local Open Scope list_scope.

(** ** Comparisons, slices and the stable sort *)

Lemma Qlt_bool_iff (a b : Q) : Qlt_bool a b = true <-> a < b.
Proof.
  unfold Qlt_bool. rewrite negb_true_iff. split; intro H.
  - apply Qnot_le_lt. intro Hle. apply Qle_bool_iff in Hle. congruence.
  - destruct (Qle_bool b a) eqn:Hb; [|reflexivity].
    apply Qle_bool_iff in Hb. exfalso. exact (Qlt_not_le _ _ H Hb).
Qed.

Lemma Qlt_bool_false (a b : Q) : Qlt_bool a b = false <-> b <= a.
Proof.
  unfold Qlt_bool. rewrite negb_false_iff. apply Qle_bool_iff.
Qed.

Lemma clamp_le (len i : Z) : (0 <= i)%Z -> (clamp len i <= Z.to_nat i)%nat.
Proof.
  intro Hi. unfold clamp.
  destruct (i <? 0)%Z eqn:Hneg; [apply Z.ltb_lt in Hneg; lia|].
  apply Z2Nat.inj_le; lia.
Qed.

Lemma slice_to_length {A : Type} (n : Z) (l : list A) :
  (0 <= n)%Z -> (List.length (slice_to n l) <= Z.to_nat n)%nat.
Proof.
  intro Hn. unfold slice_to. rewrite length_firstn.
  pose proof (clamp_le (Z.of_nat (List.length l)) n Hn). lia.
Qed.

Lemma slice_to_prefix {A : Type} (n : Z) (l : list A) :
  exists rest, l = slice_to n l ++ rest.
Proof.
  unfold slice_to. eexists. symmetry. apply firstn_skipn.
Qed.

Lemma slice_to_In {A : Type} (n : Z) (l : list A) (x : A) :
  In x (slice_to n l) -> In x l.
Proof.
  destruct (slice_to_prefix n l) as [rest Hl]. intro Hx.
  rewrite Hl. apply in_or_app. now left.
Qed.

Lemma StronglySorted_app_l {A : Type} (R : A -> A -> Prop) (l1 l2 : list A) :
  StronglySorted R (l1 ++ l2) -> StronglySorted R l1.
Proof.
  induction l1 as [|x l1 IH]; simpl; intro H; [constructor|].
  inversion H as [|? ? Hs Hf]; subst. constructor.
  - now apply IH.
  - apply Forall_app in Hf. tauto.
Qed.

Lemma slice_to_sorted {A : Type} (R : A -> A -> Prop) (n : Z) (l : list A) :
  StronglySorted R l -> StronglySorted R (slice_to n l).
Proof.
  destruct (slice_to_prefix n l) as [rest Hl]. intro H.
  rewrite Hl in H. now apply StronglySorted_app_l in H.
Qed.

Section StableSort.
Context {A : Type} (key : A -> Q).

Lemma insert_desc_perm (x : A) (l : list A) :
  Permutation (insert_desc key x l) (x :: l).
Proof.
  induction l as [|y l IH]; simpl; [reflexivity|].
  destruct (Qlt_bool (key x) (key y)); [|reflexivity].
  rewrite IH. apply perm_swap.
Qed.

Lemma sort_desc_cons (x : A) (l : list A) :
  sort_desc key (x :: l) = insert_desc key x (sort_desc key l).
Proof. reflexivity. Qed.

Lemma sort_desc_perm (l : list A) : Permutation (sort_desc key l) l.
Proof.
  induction l as [|x l IH]; [reflexivity|].
  rewrite sort_desc_cons, insert_desc_perm. now constructor.
Qed.

Lemma sort_desc_In (l : list A) (x : A) : In x (sort_desc key l) <-> In x l.
Proof.
  split; apply Permutation_in;
    [apply sort_desc_perm | symmetry; apply sort_desc_perm].
Qed.

(** Given a relation [T] that holds from every element of the input to
    every later one: keys descend in the output, and among equal keys [T]
    still holds from the earlier to the later. *)
Lemma insert_desc_sorted (T : A -> A -> Prop) (x : A) (l : list A) :
  StronglySorted (desc_then key T) l ->
  Forall (T x) l ->
  StronglySorted (desc_then key T) (insert_desc key x l).
Proof.
  induction l as [|y l IH]; simpl; intros Hs Hx.
  - repeat constructor.
  - inversion Hs as [|? ? Hs' Hy]; subst.
    inversion Hx as [|? ? Hxy Hxl]; subst.
    destruct (Qlt_bool (key x) (key y)) eqn:Hlt.
    + apply Qlt_bool_iff in Hlt. constructor.
      * now apply IH.
      * apply Forall_forall. intros z Hz.
        apply (Permutation_in _ (insert_desc_perm x l)) in Hz.
        destruct Hz as [<-|Hz]; [left; exact Hlt|].
        rewrite Forall_forall in Hy. now apply Hy.
    + apply Qlt_bool_false in Hlt. constructor; [assumption|].
      assert (Hbound : forall z, In z (y :: l) -> key z <= key x).
      { intros z [<-|Hz]; [assumption|].
        rewrite Forall_forall in Hy. destruct (Hy z Hz) as [Hzy|[Hzy _]].
        - apply Qlt_le_weak. eapply Qlt_le_trans; eassumption.
        - rewrite Hzy. assumption. }
      apply Forall_forall. intros z Hz.
      pose proof (Hbound z Hz) as Hle.
      apply Qle_lt_or_eq in Hle. destruct Hle as [Hle|Heq]; [left; exact Hle|].
      right. split; [assumption|].
      rewrite Forall_forall in Hx. now apply Hx.
Qed.

Lemma sort_desc_stable (T : A -> A -> Prop) (l : list A) :
  StronglySorted T l -> StronglySorted (desc_then key T) (sort_desc key l).
Proof.
  induction l as [|x l IH]; intro Hs; [constructor|].
  inversion Hs as [|? ? Hs' Hx]; subst. rewrite sort_desc_cons.
  apply insert_desc_sorted; [now apply IH|].
  apply Forall_forall. intros z Hz. apply (proj1 (sort_desc_In l z)) in Hz.
  rewrite Forall_forall in Hx. now apply Hx.
Qed.

End StableSort.

(** ** Loops that collect *)

Lemma collect_In {A B : Type} (f : A -> result (option B)) (xs : list A)
      (ys : list B) (y : B) :
  collect f xs = Ok ys -> In y ys -> exists x, In x xs /\ f x = Ok (Some y).
Proof.
  revert ys. induction xs as [|x xs IH]; simpl; intros ys H Hy.
  - injection H as <-. destruct Hy.
  - destruct (f x) as [o|e] eqn:Hf; simpl in H; [|discriminate].
    destruct (collect f xs) as [rest|e] eqn:Hc; simpl in H; [|discriminate].
    injection H as <-. destruct o as [y'|].
    + destruct Hy as [<-|Hy]; [exists x; auto|].
      destruct (IH rest eq_refl Hy) as [x' [Hin Hx']]. exists x'; auto.
    + destruct (IH rest eq_refl Hy) as [x' [Hin Hx']]. exists x'; auto.
Qed.

Lemma collect_complete {A B : Type} (f : A -> result (option B)) (xs : list A)
      (ys : list B) (x : A) (y : B) :
  collect f xs = Ok ys -> In x xs -> f x = Ok (Some y) -> In y ys.
Proof.
  revert ys. induction xs as [|x' xs IH]; simpl; intros ys H Hx Hfx; [destruct Hx|].
  destruct (f x') as [o|e] eqn:Hf; simpl in H; [|discriminate].
  destruct (collect f xs) as [rest|e] eqn:Hc; simpl in H; [|discriminate].
  injection H as <-. destruct Hx as [->|Hx].
  - rewrite Hfx in Hf. injection Hf as <-. now left.
  - specialize (IH rest eq_refl Hx Hfx). destruct o; [now right|assumption].
Qed.

(** The kept elements come in the order of the input: a relation that
    holds from each input to every later one holds between their images. *)
(** A loop that appends exactly under a condition appends one element for
    each input that meets it, in the order of the input. *)
Lemma collect_filter {A B : Type} (f : A -> result (option B)) (keep : A -> bool)
      (xs : list A) (ys : list B) :
  collect f xs = Ok ys ->
  (forall x o, In x xs -> f x = Ok o ->
               keep x = match o with Some _ => true | None => false end) ->
  Forall2 (fun x y => f x = Ok (Some y)) (filter keep xs) ys.
Proof.
  revert ys. induction xs as [|x xs IH]; simpl; intros ys H Hkeep.
  - injection H as <-. constructor.
  - destruct (f x) as [o|e] eqn:Hx; simpl in H; [|discriminate].
    destruct (collect f xs) as [rest|e]; simpl in H; [|discriminate].
    injection H as <-.
    rewrite (Hkeep x o (or_introl eq_refl) Hx).
    specialize (IH rest eq_refl (fun y o' Hy => Hkeep y o' (or_intror Hy))).
    destruct o; [now constructor|assumption].
Qed.

Lemma collect_sorted {A B : Type} (f : A -> result (option B)) (g : B -> A)
      (R : A -> A -> Prop) (xs : list A) (ys : list B) :
  (forall x y, f x = Ok (Some y) -> g y = x) ->
  collect f xs = Ok ys ->
  StronglySorted R xs ->
  StronglySorted (fun a b => R (g a) (g b)) ys.
Proof.
  intro Hg. revert ys. induction xs as [|x xs IH]; simpl; intros ys H Hs.
  - injection H as <-. constructor.
  - destruct (f x) as [o|e] eqn:Hf; simpl in H; [|discriminate].
    destruct (collect f xs) as [rest|e] eqn:Hc; simpl in H; [|discriminate].
    injection H as <-. inversion Hs as [|? ? Hs' Hx]; subst.
    specialize (IH rest eq_refl Hs'). destruct o as [y|]; [|assumption].
    constructor; [assumption|]. apply Forall_forall. intros z Hz.
    destruct (collect_In f xs rest z Hc Hz) as [x' [Hin Hx']].
    rewrite (Hg _ _ Hf), (Hg _ _ Hx'). rewrite Forall_forall in Hx. now apply Hx.
Qed.

(** ** Labels of a pivoted frame *)

Lemma label_lt_trans (a b c : string) : label_lt a b -> label_lt b c -> label_lt a c.
Proof.
  unfold label_lt. intros Hab Hbc.
  apply String_as_OT.cmp_lt. apply String_as_OT.cmp_lt in Hab, Hbc.
  eapply String_as_OT.lt_trans; eassumption.
Qed.

Lemma label_lt_of_Gt (a b : string) : String.compare a b = Gt -> label_lt b a.
Proof.
  unfold label_lt. intro H. rewrite String.compare_antisym, H. reflexivity.
Qed.

Lemma label_lt_irrefl (a : string) : ~ label_lt a a.
Proof.
  unfold label_lt. intro H.
  assert (Heq : String.compare a a = Eq) by now apply String_as_OT.cmp_eq.
  congruence.
Qed.

Lemma insert_label_In (s x : string) (l : list string) :
  In x (insert_label s l) <-> x = s \/ In x l.
Proof.
  induction l as [|y l IH]; simpl.
  - intuition.
  - destruct (String.compare s y) eqn:Hc; simpl.
    + apply String.compare_eq_iff in Hc. subst. intuition.
    + intuition.
    + rewrite IH. intuition.
Qed.

Lemma insert_label_sorted (s : string) (l : list string) :
  StronglySorted label_lt l -> StronglySorted label_lt (insert_label s l).
Proof.
  induction l as [|y l IH]; simpl; intro Hs.
  - repeat constructor.
  - inversion Hs as [|? ? Hs' Hy]; subst.
    destruct (String.compare s y) eqn:Hc.
    + assumption.
    + constructor; [assumption|]. constructor; [exact Hc|].
      eapply Forall_impl; [|exact Hy]. intros z Hz.
      eapply label_lt_trans; [exact Hc|exact Hz].
    + constructor; [now apply IH|].
      apply Forall_forall. intros z Hz. apply insert_label_In in Hz.
      destruct Hz as [->|Hz]; [now apply label_lt_of_Gt|].
      rewrite Forall_forall in Hy. now apply Hy.
Qed.

Lemma sorted_unique_sorted (l : list string) :
  StronglySorted label_lt (sorted_unique l).
Proof.
  induction l as [|x l IH]; simpl; [constructor|]. now apply insert_label_sorted.
Qed.

Lemma sorted_unique_In (l : list string) (x : string) :
  In x (sorted_unique l) <-> In x l.
Proof.
  induction l as [|y l IH]; simpl; [tauto|].
  rewrite insert_label_In, IH. intuition.
Qed.

Lemma pivot_columns (rs : list Rating) (p : Frame (option Q)) :
  pivot rs = Ok p ->
  columns (fillna 0 p) = sorted_unique (map book_id rs) /\
  index (fillna 0 p) = sorted_unique (map user_id rs).
Proof.
  unfold pivot. destruct (has_duplicates rs); [discriminate|].
  intro H. injection H as <-. split; reflexivity.
Qed.

(** ** Positions of labels *)

Lemma position_Some_In (label : string) (idx : list string) (i : nat) :
  position label idx = Some i -> In label idx.
Proof.
  revert i. induction idx as [|l idx IH]; simpl; intros i H; [discriminate|].
  destruct (String.eqb label l) eqn:He.
  - apply String.eqb_eq in He. now left.
  - destruct (position label idx); [|discriminate]. right. eapply IH. reflexivity.
Qed.

Lemma position_None (label : string) (idx : list string) :
  position label idx = None <-> ~ In label idx.
Proof.
  induction idx as [|l idx IH]; simpl; [tauto|].
  destruct (String.eqb label l) eqn:He.
  - apply String.eqb_eq in He. split; [discriminate|]. intro H. exfalso. auto.
  - apply String.eqb_neq in He.
    destruct (position label idx); simpl.
    + split; [discriminate|]. intro H.
      assert (Hn : ~ In label idx) by tauto. apply IH in Hn. discriminate.
    + split; [|reflexivity]. intros _ [H|H]; [congruence|].
      now apply (proj1 IH).
Qed.

Lemma mem_In (x : string) (l : list string) : mem x l = true <-> In x l.
Proof.
  unfold mem. rewrite existsb_exists. split.
  - intros [y [Hy He]]. apply String.eqb_eq in He. now subst.
  - intro H. exists x. split; [assumption|apply String.eqb_refl].
Qed.

(** ** Collaborative filter: the shape of a successful call *)

Section CollaborativeFacts.
Context {E : Externals}.
Import CollaborativeFilter.

Lemma train_matrix (self self' : t) (rs : list Rating) :
  train self rs = (self', Ok tt) ->
  exists p, pivot rs = Ok p /\ user_item_matrix self' = Some (fillna 0 p).
Proof.
  unfold train. destruct (pivot rs) as [p|e]; [|intro H; discriminate].
  destruct (fit_transform _ _) as [[fitted uf]|e]; [|intro H; discriminate].
  destruct (cosine_similarity uf) as [us|e]; [|intro H; discriminate].
  destruct (cosine_similarity _) as [its|e]; [|intro H; discriminate].
  intro H. injection H as <-. exists p. split; reflexivity.
Qed.

Lemma get_user_recommendations_inv (self : t) (user : string) (n : Z)
      (recs : list CollabRec) :
  get_user_recommendations self user n = Ok recs ->
  exists m idx row similar full,
    user_item_matrix self = Some m /\
    get_loc (index m) user = Ok idx /\
    iloc m idx = Ok row /\
    get_similar_users self idx 50 = Ok similar /\
    collect (candidate self idx row similar) (columns m) = Ok full /\
    recs = slice_to n (sort_desc predicted_rating full).
Proof.
  unfold get_user_recommendations.
  destruct (user_item_matrix self) as [m|]; [|discriminate].
  destruct (get_loc (index m) user) as [idx|e] eqn:Hi; simpl; [|discriminate].
  destruct (iloc m idx) as [row|e] eqn:Hr; simpl; [|discriminate].
  destruct (get_similar_users self idx 50) as [similar|e] eqn:Hs; simpl;
    [|discriminate].
  destruct (collect _ (columns m)) as [full|e] eqn:Hc; simpl; [|discriminate].
  intro H. injection H as <-.
  exists m, idx, row, similar, full. repeat split; auto.
Qed.

Lemma candidate_inv (self : t) (idx : nat) (row : Series)
      (similar : list (nat * Q)) (b : string) (rec : CollabRec) :
  candidate self idx row similar b = Ok (Some rec) ->
  collab_book_id rec = b /\
  (exists r, series_get row b = Ok r /\ r == 0) /\
  predict_rating self idx b similar = Ok (predicted_rating rec).
Proof.
  unfold candidate. destruct (series_get row b) as [r|e]; simpl; [|discriminate].
  destruct (Qeq_bool r 0) eqn:Hr; [|discriminate].
  destruct (predict_rating self idx b similar) as [p|e]; simpl; [|discriminate].
  intro H. injection H as <-. simpl. repeat split.
  exists r. split; [reflexivity|now apply Qeq_bool_iff].
Qed.

Lemma candidate_unrated (self : t) (idx : nat) (row : Series)
      (similar : list (nat * Q)) (b : string) (o : option CollabRec) (r : Q) :
  candidate self idx row similar b = Ok o ->
  series_get row b = Ok r -> r == 0 ->
  exists rec, o = Some rec.
Proof.
  unfold candidate. intros H Hr Hz. rewrite Hr in H. simpl in H.
  apply Qeq_bool_iff in Hz. rewrite Hz in H.
  destruct (predict_rating self idx b similar) as [p|e]; simpl in H; [|discriminate].
  injection H as <-. eauto.
Qed.

Lemma get_similar_users_length (self : t) (idx : nat) (top_k : Z)
      (similar : list (nat * Q)) :
  (0 <= top_k)%Z ->
  get_similar_users self idx top_k = Ok similar ->
  (List.length similar <= Z.to_nat top_k)%nat.
Proof.
  intros Hk. unfold get_similar_users.
  destruct (user_similarity self) as [us|]; [|discriminate].
  destruct (row_at us idx) as [sims|e]; simpl; [|discriminate].
  set (ixs := slice 1 (top_k + 1) (rev (argsort sims))).
  assert (Hlen : (List.length ixs <= Z.to_nat top_k)%nat).
  { unfold ixs, slice. rewrite length_firstn.
    set (len := Z.of_nat (List.length (rev (argsort sims)))).
    assert (Hlen0 : (0 <= len)%Z) by (unfold len; lia).
    etransitivity; [apply Nat.le_min_l|]. clearbody len.
    unfold clamp. change (1 <? 0)%Z with false. cbv iota.
    destruct (top_k + 1 <? 0)%Z eqn:Hneg; [apply Z.ltb_lt in Hneg; lia|].
    lia. }
  clearbody ixs. revert similar Hlen. generalize (Z.to_nat top_k) as k.
  induction ixs as [|i ixs IH]; simpl; intros k similar Hlen H.
  - injection H as <-. simpl. lia.
  - destruct (item_at sims i) as [s|e]; simpl in H; [|discriminate].
    destruct (collect _ ixs) as [rest|e] eqn:Hc; simpl in H; [|discriminate].
    injection H as <-. simpl. destruct k as [|k]; [lia|].
    specialize (IH k rest ltac:(lia) eq_refl). lia.
Qed.

End CollaborativeFacts.

(** ** The loop of [predict_rating] *)

Section PredictFacts.
Context {E : Externals}.
Import CollaborativeFilter.

Lemma rated_neighbours_cons (nb : nat * Q) (r : Q) (similar : list (nat * Q))
      (rs : list Q) :
  rated_neighbours (nb :: similar) (r :: rs) =
  if Qlt_bool 0 r then (nb, r) :: rated_neighbours similar rs
  else rated_neighbours similar rs.
Proof. reflexivity. Qed.

Lemma similarity_total_nonneg (rated : list ((nat * Q) * Q)) :
  0 <= similarity_total rated.
Proof.
  induction rated as [|p rated IH]; unfold similarity_total in *; simpl.
  - apply Qle_refl.
  - pose proof (Qplus_le_compat _ _ _ _ (Qabs_nonneg (snd (fst p))) IH) as H.
    rewrite Qplus_0_l in H. exact H.
Qed.

(** The loop visits the neighbours in order and adds to the two sums the
    terms of those with a positive stored rating. *)
Lemma predict_loop (self : t) (m : DataFrame) (book : string)
      (similar : list (nat * Q)) (w s w' s' : Q) :
  user_item_matrix self = Some m ->
  for_each (predict_step self book) similar (w, s) = Ok (w', s') ->
  exists rs,
    Forall2 (fun nb r => neighbour_rating m book nb = Ok r) similar rs /\
    w' == w + weighted_total (rated_neighbours similar rs) /\
    s' == s + similarity_total (rated_neighbours similar rs).
Proof.
  intro Hm. revert w s. induction similar as [|[i sim] similar IH]; intros w s H.
  - simpl in H. injection H as <- <-. exists []. split; [constructor|].
    unfold weighted_total, similarity_total. simpl. split; ring.
  - simpl in H. rewrite Hm in H.
    destruct (iloc m i) as [row|e] eqn:Hrow; simpl in H; [|discriminate].
    destruct (series_get row book) as [r|e] eqn:Hr; simpl in H; [|discriminate].
    assert (Hnb : neighbour_rating m book (i, sim) = Ok r).
    { unfold neighbour_rating. simpl. rewrite Hrow. simpl. exact Hr. }
    destruct (Qlt_bool 0 r) eqn:Hpos; simpl in H.
    + destruct (IH _ _ H) as [rs [Hrs [Hw Hs]]]. exists (r :: rs).
      split; [now constructor|]. rewrite rated_neighbours_cons, Hpos.
      unfold weighted_total, similarity_total in *. simpl.
      rewrite Hw, Hs. split; ring.
    + destruct (IH _ _ H) as [rs [Hrs [Hw Hs]]]. exists (r :: rs).
      split; [now constructor|]. rewrite rated_neighbours_cons, Hpos.
      split; assumption.
Qed.

Lemma predict_step_no_zero_division (self : t) (book : string)
      (sums : Q * Q) (nb : nat * Q) :
  predict_step self book sums nb <> Raise ZeroDivisionError.
Proof.
  unfold predict_step. destruct sums as [w s], nb as [i sim].
  destruct (user_item_matrix self) as [m|]; [|discriminate].
  unfold iloc. destruct (nth_error (values m) i) as [row|]; simpl; [|discriminate].
  unfold series_get, get_loc. simpl.
  destruct (position book (columns m)) as [j|]; simpl; [|discriminate].
  destruct (nth_error row j) as [r|]; simpl; [|discriminate].
  destruct (Qlt_bool 0 r); discriminate.
Qed.

Lemma predict_loop_no_zero_division (self : t) (book : string)
      (similar : list (nat * Q)) (sums : Q * Q) :
  for_each (predict_step self book) similar sums <> Raise ZeroDivisionError.
Proof.
  revert sums. induction similar as [|nb similar IH]; intro sums; simpl;
    [discriminate|].
  destruct (predict_step self book sums nb) as [sums'|e] eqn:Hstep; simpl.
  - apply IH.
  - intro H. injection H as ->.
    exact (predict_step_no_zero_division self book sums nb Hstep).
Qed.

(** The guard on [similarity_sum] keeps the division from a zero
    divisor. *)
Lemma predict_rating_no_zero_division (self : t) (idx : nat) (book : string)
      (similar : list (nat * Q)) :
  predict_rating self idx book similar <> Raise ZeroDivisionError.
Proof.
  unfold predict_rating.
  destruct (for_each _ similar (0, 0)) as [[w s]|e] eqn:Hloop; simpl.
  - destruct (Qeq_bool s 0) eqn:Hs; [discriminate|].
    unfold div. rewrite Hs. discriminate.
  - intro H. injection H as ->.
    exact (predict_loop_no_zero_division self book similar (0, 0) Hloop).
Qed.

Lemma predict_rating_value (self : t) (m : DataFrame) (idx : nat)
      (book : string) (similar : list (nat * Q)) (p : Q) :
  user_item_matrix self = Some m ->
  predict_rating self idx book similar = Ok p ->
  exists rs,
    Forall2 (fun nb r => neighbour_rating m book nb = Ok r) similar rs /\
    (similarity_total (rated_neighbours similar rs) == 0 -> p = 0) /\
    (~ similarity_total (rated_neighbours similar rs) == 0 ->
     p == weighted_total (rated_neighbours similar rs)
          / similarity_total (rated_neighbours similar rs)).
Proof.
  intros Hm. unfold predict_rating.
  destruct (for_each _ similar (0, 0)) as [[w s]|e] eqn:Hloop; simpl;
    [|discriminate].
  destruct (predict_loop self m book similar 0 0 w s Hm Hloop)
    as [rs [Hrs [Hw Hs]]].
  rewrite Qplus_0_l in Hw, Hs. intro H. exists rs. split; [assumption|].
  destruct (Qeq_bool s 0) eqn:Hz.
  - injection H as <-. split; [reflexivity|].
    intro Hne. exfalso. apply Hne. rewrite <- Hs. now apply Qeq_bool_iff.
  - unfold div in H. rewrite Hz in H. injection H as <-.
    apply Qeq_bool_neq in Hz. split.
    + intro Hzero. exfalso. apply Hz. now rewrite Hs.
    + intros _. now rewrite Hw, Hs.
Qed.

End PredictFacts.

Lemma collect_each {A B : Type} (f : A -> result (option B)) (xs : list A)
      (ys : list B) (x : A) :
  collect f xs = Ok ys -> In x xs -> exists o, f x = Ok o.
Proof.
  revert ys. induction xs as [|x' xs IH]; simpl; intros ys H Hx; [destruct Hx|].
  destruct (f x') as [o|e] eqn:Hf; simpl in H; [|discriminate].
  destruct (collect f xs) as [rest|e] eqn:Hc; simpl in H; [|discriminate].
  destruct Hx as [<-|Hx]; [eauto|]. eapply IH; [reflexivity|assumption].
Qed.

(** ** Cells of the pivoted matrix *)

Lemma nth_error_map_position {B : Type} (f : string -> B) (x : string)
      (l : list string) (i : nat) :
  position x l = Some i -> nth_error (map f l) i = Some (f x).
Proof.
  revert i. induction l as [|y l IH]; simpl; intros i H; [discriminate|].
  destruct (String.eqb x y) eqn:He.
  - apply String.eqb_eq in He. injection H as <-. now subst.
  - destruct (position x l) as [j|]; simpl in H; [|discriminate].
    injection H as <-. simpl. now apply IH.
Qed.

Lemma pivot_cell (rs : list Rating) (p : Frame (option Q)) (u b : string) (r : Q) :
  pivot rs = Ok p ->
  rating_at (fillna 0 p) u b = Ok r ->
  r = match find (same_cell u b) rs with Some x => rating x | None => 0 end.
Proof.
  unfold pivot. destruct (has_duplicates rs); [discriminate|].
  intro H. injection H as <-.
  unfold rating_at, get_loc, iloc, series_get, get_loc, fillna. simpl.
  destruct (position u (sorted_unique (map user_id rs))) as [i|] eqn:Hi; simpl;
    [|discriminate].
  rewrite map_map, (nth_error_map_position _ u _ i Hi). simpl.
  destruct (position b (sorted_unique (map book_id rs))) as [j|] eqn:Hj; simpl;
    [|discriminate].
  rewrite map_map, (nth_error_map_position _ b _ j Hj).
  intro H. injection H as <-. destruct (find (same_cell u b) rs); reflexivity.
Qed.

Lemma same_cell_refl (r : Rating) : same_cell (user_id r) (book_id r) r = true.
Proof. unfold same_cell. now rewrite !String.eqb_refl. Qed.

Lemma same_cell_eq (u b : string) (r : Rating) :
  same_cell u b r = true -> user_id r = u /\ book_id r = b.
Proof.
  unfold same_cell. rewrite andb_true_iff, !String.eqb_eq. tauto.
Qed.

(** A table without two rows for one cell has the row of a cell as its
    first match. *)
Lemma find_unique_row (rs : list Rating) (row : Rating) :
  has_duplicates rs = false -> In row rs ->
  find (same_cell (user_id row) (book_id row)) rs = Some row.
Proof.
  induction rs as [|x rs IH]; simpl; intros Hd Hin; [destruct Hin|].
  apply orb_false_iff in Hd. destruct Hd as [Hx Hd].
  destruct Hin as [->|Hin]; [now rewrite same_cell_refl|].
  destruct (same_cell (user_id row) (book_id row) x) eqn:Hc.
  - exfalso. apply same_cell_eq in Hc. destruct Hc as [Hu Hb].
    assert (Hex : existsb (same_cell (user_id x) (book_id x)) rs = true).
    { apply existsb_exists. exists row. split; [assumption|].
      rewrite Hu, Hb. apply same_cell_refl. }
    congruence.
  - now apply IH.
Qed.

Lemma pivot_no_duplicates (rs : list Rating) (p : Frame (option Q)) :
  pivot rs = Ok p -> has_duplicates rs = false.
Proof.
  unfold pivot. destruct (has_duplicates rs); [discriminate|reflexivity].
Qed.

Lemma clamp_nonneg (len n : Z) :
  (0 <= len)%Z -> (0 <= n)%Z -> clamp len n = Nat.min (Z.to_nat n) (Z.to_nat len).
Proof.
  intros Hl Hn. unfold clamp.
  destruct (n <? 0)%Z eqn:Hneg; [apply Z.ltb_lt in Hneg; lia|]. lia.
Qed.

Lemma slice_to_length_exact {A : Type} (n : Z) (l : list A) :
  (0 <= n)%Z ->
  List.length (slice_to n l) = Nat.min (Z.to_nat n) (List.length l).
Proof.
  intro Hn. unfold slice_to. rewrite length_firstn, clamp_nonneg by lia. lia.
Qed.

Lemma slice_to_firstn {A : Type} (n : Z) (l : list A) :
  (0 <= n)%Z -> slice_to n l = firstn (Z.to_nat n) l.
Proof.
  intro Hn. unfold slice_to. rewrite clamp_nonneg by lia.
  destruct (Nat.le_gt_cases (Z.to_nat n) (List.length l)) as [H|H].
  - f_equal. lia.
  - rewrite !firstn_all2 by lia. reflexivity.
Qed.

(** * Collaborative recommendations *)

Section CollaborativeClaims.
Import CollaborativeFilter.

Lemma recommendation_cell {E : Externals} (self : t) (user : string) (n : Z)
      (recs : list CollabRec) (rec : CollabRec) :
  get_user_recommendations self user n = Ok recs -> In rec recs ->
  exists m r,
    user_item_matrix self = Some m /\
    rating_at m user (collab_book_id rec) = Ok r /\ r == 0.
Proof.
  intros H Hin.
  destruct (get_user_recommendations_inv _ _ _ _ H)
    as [m [idx [row [similar [full [Hm [Hi [Hrow [Hs [Hc ->]]]]]]]]]].
  apply slice_to_In, sort_desc_In in Hin.
  destruct (collect_In _ _ _ _ Hc Hin) as [b [Hb Hcand]].
  destruct (candidate_inv _ _ _ _ _ _ Hcand) as [Hid [[r [Hr Hz]] _]].
  exists m, r. split; [assumption|]. split; [|assumption].
  unfold rating_at. rewrite Hi. simpl. rewrite Hrow. simpl. now rewrite Hid.
Qed.

(** C9. A recommendation of the collaborative filter is never an item the
    user rated: its cell in the training matrix holds 0, and every row of
    the training table for that user and item has rating 0. *)
Theorem recommend_excludes_rated {E : Externals} (self self' : t)
        (rs : list Rating) (user : string) (n : Z) (recs : list CollabRec)
        (rec : CollabRec) :
  train self rs = (self', Ok tt) ->
  get_user_recommendations self' user n = Ok recs ->
  In rec recs ->
  (exists m r,
      user_item_matrix self' = Some m /\
      rating_at m user (collab_book_id rec) = Ok r /\ r == 0) /\
  (forall row, In row rs -> user_id row = user ->
               book_id row = collab_book_id rec -> rating row == 0).
Proof.
  intros Ht H Hin.
  destruct (recommendation_cell _ _ _ _ _ H Hin) as [m [r [Hm [Hr Hz]]]].
  split; [exists m, r; auto|].
  intros row Hrow Hu Hb.
  destruct (train_matrix _ _ _ Ht) as [p [Hp Hm']].
  rewrite Hm in Hm'. injection Hm' as ->.
  rewrite (pivot_cell _ _ _ _ _ Hp Hr) in Hz.
  rewrite <- Hu, <- Hb, (find_unique_row rs row) in Hz;
    [assumption|now apply (pivot_no_duplicates rs p)|assumption].
Qed.

Lemma recommend_excludes_rated_witness :
  let rec := mkCollabRec "i3" (100 # 20) "collaborative" in
  (exists m r,
      user_item_matrix Sample.collab = Some m /\
      rating_at m "u1" (collab_book_id rec) = Ok r /\ r == 0) /\
  (forall row, In row Sample.ratings -> user_id row = "u1" ->
               book_id row = collab_book_id rec -> rating row == 0).
Proof.
  intro rec.
  apply (recommend_excludes_rated (E := Sample.externals) (init 1) Sample.collab
           Sample.ratings "u1" 1 [rec] rec).
  - reflexivity.
  - vm_compute. reflexivity.
  - left. reflexivity.
Defined.

(** C7. The answer of the collaborative filter to a known user is pinned
    by the training matrix: its candidates are the columns whose cell for
    the user holds 0, one entry for each with the rating [predict_rating]
    gives it; the ranking is their stable descending sort, a permutation of
    the candidates in descending order of predicted rating with entries of
    equal predicted rating in ascending order of item id; and the answer is
    the slice [[:n]] of the ranking, its first [n] entries for [n >= 0]. *)
Theorem recommend_sorted_and_truncated {E : Externals} (self self' : t)
        (rs : list Rating) (user : string) (n : Z) (recs : list CollabRec) :
  train self rs = (self', Ok tt) ->
  get_user_recommendations self' user n = Ok recs ->
  let ranked :=
    StronglySorted
      (desc_then predicted_rating
         (fun x y => label_lt (collab_book_id x) (collab_book_id y))) in
  exists m idx similar candidates,
    let ranking := sort_desc predicted_rating candidates in
    user_item_matrix self' = Some m /\
    get_loc (index m) user = Ok idx /\
    get_similar_users self' idx 50 = Ok similar /\
    Forall2 (fun b rec =>
               collab_book_id rec = b /\
               collab_type rec = "collaborative" /\
               predict_rating self' idx b similar = Ok (predicted_rating rec))
            (filter (unrated m user) (columns m)) candidates /\
    Permutation ranking candidates /\
    ranked ranking /\
    recs = slice_to n ranking /\
    ranked recs /\
    ((0 <= n)%Z -> recs = firstn (Z.to_nat n) ranking).
Proof.
  intros Ht H ranked.
  destruct (get_user_recommendations_inv _ _ _ _ H)
    as [m [idx [row [similar [full [Hm [Hi [Hrow [Hs [Hc ->]]]]]]]]]].
  destruct (train_matrix _ _ _ Ht) as [p [Hp Hm']].
  assert (Hcols : StronglySorted label_lt (columns m)).
  { rewrite Hm in Hm'. injection Hm' as ->.
    rewrite (proj1 (pivot_columns rs p Hp)). apply sorted_unique_sorted. }
  assert (Hfull : ranked (sort_desc predicted_rating full)).
  { apply sort_desc_stable.
    apply (collect_sorted _ collab_book_id label_lt _ _
             (fun b rec Hb => proj1 (candidate_inv _ _ _ _ _ _ Hb)) Hc Hcols). }
  exists m, idx, similar, full. cbv zeta.
  split; [assumption|]. split; [assumption|]. split; [assumption|].
  split; [|split; [apply sort_desc_perm|split; [assumption|split; [reflexivity|
    split; [now apply slice_to_sorted|intro Hn; now apply slice_to_firstn]]]]].
  assert (Hcell : forall b, unrated m user b
                            = match series_get row b with
                              | Ok r => Qeq_bool r 0
                              | Raise _ => false
                              end).
  { intro b. unfold unrated, rating_at. rewrite Hi. cbn [Py.bind].
    rewrite Hrow. reflexivity. }
  apply (collect_filter _ (unrated m user)) in Hc.
  - revert Hc. apply Forall2_impl. intros b rec. unfold candidate.
    destruct (series_get row b) as [r|e]; cbn [Py.bind]; [|discriminate].
    destruct (Qeq_bool r 0); [|discriminate].
    destruct (predict_rating self' idx b similar) as [q|e]; cbn [Py.bind];
      [|discriminate].
    intro Hrec. injection Hrec as <-. repeat split.
  - intros b o _. rewrite Hcell. unfold candidate.
    destruct (series_get row b) as [r|e]; cbn [Py.bind]; [|discriminate].
    destruct (Qeq_bool r 0); [|intro Ho; injection Ho as <-; reflexivity].
    destruct (predict_rating self' idx b similar) as [q|e]; cbn [Py.bind];
      [|discriminate].
    intro Ho. injection Ho as <-. reflexivity.
Qed.

Lemma recommend_sorted_and_truncated_witness :
  exists recs,
    get_user_recommendations (E := Sample.externals) Sample.tied_collab "u1" 1
    = Ok recs /\
    map collab_book_id recs = ["i2"] /\
    exists m idx similar candidates,
      let ranking := sort_desc predicted_rating candidates in
      user_item_matrix Sample.tied_collab = Some m /\
      get_loc (index m) "u1" = Ok idx /\
      get_similar_users (E := Sample.externals) Sample.tied_collab idx 50
      = Ok similar /\
      Forall2 (fun b rec =>
                 collab_book_id rec = b /\
                 collab_type rec = "collaborative" /\
                 predict_rating Sample.tied_collab idx b similar
                 = Ok (predicted_rating rec))
              (filter (unrated m "u1") (columns m)) candidates /\
      Permutation ranking candidates /\
      StronglySorted
        (desc_then predicted_rating
           (fun x y => label_lt (collab_book_id x) (collab_book_id y))) ranking /\
      recs = slice_to 1 ranking /\
      StronglySorted
        (desc_then predicted_rating
           (fun x y => label_lt (collab_book_id x) (collab_book_id y))) recs /\
      ((0 <= 1)%Z -> recs = firstn (Z.to_nat 1) ranking).
Proof.
  eexists. split; [vm_compute; reflexivity|]. split; [reflexivity|].
  apply (recommend_sorted_and_truncated (E := Sample.externals) (init 1)
           Sample.tied_collab Sample.tied_ratings "u1" 1).
  - reflexivity.
  - vm_compute. reflexivity.
Defined.

End CollaborativeClaims.

Section PredictionClaim.
Import CollaborativeFilter.

(** C3. For a recommended item, the predicted rating is computed from the
    neighbours selected for the user (at most 50): over those whose stored
    rating of the item is positive it is [sum(sim * rating) / sum(|sim|)]
    when that divisor is not 0, and it is 0 when the divisor is 0, which
    covers the case that no selected neighbour rated the item. The
    prediction never fails on a zero divisor. *)
Theorem predicted_rating_weighted_average {E : Externals} (self : t)
        (user : string) (n : Z) (recs : list CollabRec) (rec : CollabRec) :
  get_user_recommendations self user n = Ok recs ->
  In rec recs ->
  exists m idx similar rs,
    user_item_matrix self = Some m /\
    get_loc (index m) user = Ok idx /\
    get_similar_users self idx 50 = Ok similar /\
    (List.length similar <= 50)%nat /\
    Forall2 (fun nb r => neighbour_rating m (collab_book_id rec) nb = Ok r)
            similar rs /\
    predict_rating self idx (collab_book_id rec) similar
    = Ok (predicted_rating rec) /\
    let rated := rated_neighbours similar rs in
    (rated = [] -> predicted_rating rec = 0) /\
    (similarity_total rated == 0 -> predicted_rating rec = 0) /\
    (~ similarity_total rated == 0 ->
     predicted_rating rec == weighted_total rated / similarity_total rated) /\
    (forall idx' book similar',
        predict_rating self idx' book similar' <> Raise ZeroDivisionError).
Proof.
  intros H Hin.
  destruct (get_user_recommendations_inv _ _ _ _ H)
    as [m [idx [row [similar [full [Hm [Hi [Hrow [Hs [Hc ->]]]]]]]]]].
  apply slice_to_In, sort_desc_In in Hin.
  destruct (collect_In _ _ _ _ Hc Hin) as [b [Hb Hcand]].
  destruct (candidate_inv _ _ _ _ _ _ Hcand) as [Hid [_ Hp]].
  rewrite <- Hid in Hp.
  destruct (predict_rating_value _ _ _ _ _ _ Hm Hp) as [rs [Hrs [Hzero Hval]]].
  exists m, idx, similar, rs.
  split; [assumption|]. split; [assumption|]. split; [assumption|].
  split; [exact (get_similar_users_length self idx 50 similar ltac:(lia) Hs)|].
  split; [assumption|]. split; [assumption|].
  cbv zeta. split; [|split; [assumption|split; [assumption|]]].
  - intro Hnil. apply Hzero. rewrite Hnil. reflexivity.
  - intros idx' book similar'. apply predict_rating_no_zero_division.
Qed.

Lemma predicted_rating_weighted_average_witness :
  let rec := mkCollabRec "i3" (100 # 20) "collaborative" in
  let rated := rated_neighbours [(1%nat, 20)] [5] in
  get_user_recommendations (E := Sample.externals) Sample.collab "u1" 1
  = Ok [rec] /\
  ~ similarity_total rated == 0 /\
  predicted_rating rec == weighted_total rated / similarity_total rated.
Proof.
  intros rec rated.
  destruct (predicted_rating_weighted_average (E := Sample.externals)
              Sample.collab "u1" 1 [rec] rec eq_refl (or_introl eq_refl))
    as [m [idx [similar [rs [Hm [Hi [Hs [_ [Hrs [_ [_ [_ [Hval _]]]]]]]]]]]]].
  split; [reflexivity|].
  assert (Hne : ~ similarity_total rated == 0) by (vm_compute; discriminate).
  split; [exact Hne|]. vm_compute. reflexivity.
Defined.

End PredictionClaim.

(** * Training twice, untrained filters and unknown users *)

Section TrainClaims.
Import CollaborativeFilter.
Context {E : Externals}.

(** A fitted estimator keeps its rank and its seed, so fitting it again on
    the same data gives the same estimator and the same factors. *)
Lemma fit_transform_again (s fitted : TruncatedSVD) (X uf : matrix) :
  fit_transform s X = Ok (fitted, uf) ->
  fit_transform fitted X = Ok (fitted, uf).
Proof.
  unfold fit_transform.
  destruct (svd_fit (svd_n_components s) (random_state s) X) as [r|e] eqn:Hfit;
    simpl; [|discriminate].
  intro H. injection H as <- <-. simpl. rewrite Hfit. reflexivity.
Qed.

Ltac train_step :=
  unfold train;
  cbn [svd n_components user_item_matrix user_similarity item_similarity].

Lemma train_again (self : t) (rs : list Rating) :
  train (fst (train self rs)) rs = train self rs.
Proof.
  destruct (train self rs) as [s1 o1] eqn:H1. cbn [fst].
  revert H1. train_step.
  destruct (pivot rs) as [p|e] eqn:Hp.
  - destruct (fit_transform (svd self) (values (fillna 0 p)))
      as [[fitted uf]|e] eqn:Hfit.
    + pose proof (fit_transform_again _ _ _ _ Hfit) as Hfit'.
      destruct (cosine_similarity uf) as [us|e] eqn:Hus.
      * destruct (cosine_similarity
                    match components_ fitted with
                    | Some c => transpose c
                    | None => []
                    end) as [its|e] eqn:Hits;
          intro H1; injection H1 as <- <-; train_step;
            rewrite Hfit', Hus, Hits; reflexivity.
      * intro H1. injection H1 as <- <-. train_step.
        rewrite Hfit', Hus. reflexivity.
    + intro H1. injection H1 as <- <-. train_step.
      rewrite Hfit. reflexivity.
  - intro H1. injection H1 as <- <-. reflexivity.
Qed.

(** C10. Training a second time with the same ratings leaves the model as
    the first training left it, with the same outcome, so every
    recommendation request is answered as after a single training. *)
Theorem train_twice_same_model (self : t) (rs : list Rating) :
  train (fst (train self rs)) rs = train self rs /\
  forall user n,
    get_user_recommendations (fst (train (fst (train self rs)) rs)) user n
    = get_user_recommendations (fst (train self rs)) user n.
Proof.
  split; [apply train_again|].
  intros user n. now rewrite train_again.
Qed.

(** C8, the part the code has by design: a collaborative filter without a
    training matrix refuses a recommendation request with the error
    [ValueError("Model not trained yet")], before any lookup. *)
Theorem untrained_collaborative_refuses (self : t) (user : string) (n : Z) :
  user_item_matrix self = None ->
  get_user_recommendations self user n
  = Raise (ValueError "Model not trained yet").
Proof.
  intro H. unfold get_user_recommendations. now rewrite H.
Qed.

(** C2, as the code has it: a user absent from the training matrix makes
    the collaborative filter raise the [KeyError] of the failed lookup,
    and the hybrid engine passes that error on to its caller. *)
Theorem unknown_user_error_propagates (engine : HybridRecommendationEngine.t)
        (m : DataFrame) (user : string) (profile : UserProfile) (n : Z) :
  user_item_matrix (HybridRecommendationEngine.collaborative_filter engine)
  = Some m ->
  ~ In user (index m) ->
  get_user_recommendations
    (HybridRecommendationEngine.collaborative_filter engine) user n
  = Raise (KeyError user) /\
  HybridRecommendationEngine.get_recommendations engine user profile n
  = Raise (KeyError user).
Proof.
  intros Hm Hu. apply position_None in Hu.
  assert (Hc : forall k,
             get_user_recommendations
               (HybridRecommendationEngine.collaborative_filter engine) user k
             = Raise (KeyError user)).
  { intro k. unfold get_user_recommendations, get_loc. rewrite Hm, Hu.
    reflexivity. }
  split; [apply Hc|].
  unfold HybridRecommendationEngine.get_recommendations. now rewrite Hc.
Qed.

End TrainClaims.

Lemma untrained_collaborative_refuses_witness :
  CollaborativeFilter.get_user_recommendations (E := Sample.externals)
    (CollaborativeFilter.init 50) "u1" 10
  = Raise (ValueError "Model not trained yet").
Proof.
  apply (untrained_collaborative_refuses (E := Sample.externals)
           (CollaborativeFilter.init 50) "u1" 10).
  reflexivity.
Defined.

(** An untrained content filter has no such refusal: the recommendation
    request stops on the attribute error of the missing catalog, and the
    score of a book for a profile without history is computed. *)
Lemma untrained_content_filter_not_refused :
  ContentBasedFilter.get_content_recommendations ContentBasedFilter.init
    Sample.romance_reader 10
  = Raise (AttributeError "'NoneType' object has no attribute 'iterrows'") /\
  ContentBasedFilter.calculate_content_score ContentBasedFilter.init
    (Catalog.mkBook "i1" (Some "Emma") (Some "Austen") (Some "Romance") None)
    Sample.romance_reader
  = Ok (0 + 0.4).
Proof.
  split; reflexivity.
Qed.

Lemma unknown_user_error_propagates_witness :
  CollaborativeFilter.get_user_recommendations (E := Sample.externals)
    Sample.collab "unknown_user" 5
  = Raise (KeyError "unknown_user") /\
  HybridRecommendationEngine.get_recommendations (E := Sample.externals)
    Sample.engine "unknown_user" Sample.romance_reader 5
  = Raise (KeyError "unknown_user").
Proof.
  apply (unknown_user_error_propagates (E := Sample.externals) Sample.engine
           (mkFrame ["u1"; "u2"] ["i1"; "i2"; "i3"] [[5; 1; 0]; [4; 0; 5]])
           "unknown_user" Sample.romance_reader 5).
  - reflexivity.
  - simpl. intros [H|[H|[]]]; discriminate.
Defined.

(** The hybrid engine fails for a user the collaborative filter does not
    know, instead of ranking the content and social candidates. *)
Lemma hybrid_fails_for_unknown_user :
  HybridRecommendationEngine.get_recommendations (E := Sample.externals)
    Sample.engine "unknown_user" Sample.romance_reader 5
  = Raise (KeyError "unknown_user").
Proof.
  vm_compute. reflexivity.
Qed.

(** * Content scores *)

Lemma position_lt (x : string) (l : list string) (i : nat) :
  position x l = Some i -> (i < List.length l)%nat.
Proof.
  revert i. induction l as [|y l IH]; simpl; intros i H; [discriminate|].
  destruct (String.eqb x y).
  - injection H as <-. lia.
  - destruct (position x l) as [j|]; simpl in H; [|discriminate].
    injection H as <-. specialize (IH j eq_refl). lia.
Qed.

Lemma position_of_In (x : string) (l : list string) :
  In x l -> exists i, position x l = Some i.
Proof.
  intro H. destruct (position x l) as [i|] eqn:Hp; [eauto|].
  apply position_None in Hp. contradiction.
Qed.

Lemma max_cases (a b : Q) :
  (Py.max a b = a /\ b <= a) \/ (Py.max a b = b /\ a < b).
Proof.
  unfold Py.max. destruct (Qlt_bool a b) eqn:H.
  - right. split; [reflexivity|now apply Qlt_bool_iff].
  - left. split; [reflexivity|now apply Qlt_bool_false].
Qed.

(** The running maximum: it is the start value or an element, and it
    bounds both. *)
Lemma running_max (l : list Q) (a : Q) :
  let m := fold_left Py.max l a in
  a <= m /\ Forall (fun x => x <= m) l /\ (m = a \/ In m l).
Proof.
  revert a. induction l as [|x l IH]; intro a; simpl.
  - split; [apply Qle_refl|]. split; [constructor|now left].
  - destruct (IH (Py.max a x)) as [Hle [Hall Hin]].
    destruct (max_cases a x) as [[He Hxa]|[He Hax]]; rewrite He in *.
    + split; [assumption|]. split.
      * constructor; [eapply Qle_trans; eassumption|assumption].
      * destruct Hin as [Hin|Hin]; [now left|right; now right].
    + split; [eapply Qle_trans; [apply Qlt_le_weak; eassumption|assumption]|].
      split; [constructor; assumption|].
      right. destruct Hin as [->|Hin]; [now left|now right].
Qed.

(** Over entries that are not negative, the running maximum from 0 is the
    largest entry. *)
Lemma running_max_nonneg (l : list Q) :
  Forall (Qle 0) l -> l <> [] ->
  (exists x, In x l /\ x == fold_left Py.max l 0) /\
  Forall (fun x => x <= fold_left Py.max l 0) l.
Proof.
  intros Hpos Hne. destruct (running_max l 0) as [H0 [Hall Hin]].
  cbv zeta in *. split; [|assumption].
  destruct Hin as [Heq|Hin]; [|exists (fold_left Py.max l 0); split;
                                  [assumption|reflexivity]].
  destruct l as [|x l]; [congruence|]. exists x. split; [now left|].
  rewrite Heq in Hall |- *. inversion Hall; subst. inversion Hpos; subst.
  now apply Qle_antisym.
Qed.

Lemma content_train_catalog {E : Externals} (before self : ContentBasedFilter.t)
      (books : list Catalog.Book) :
  ContentBasedFilter.train before books = (self, Ok tt) ->
  ContentBasedFilter.book_features self = Some books.
Proof.
  unfold ContentBasedFilter.train.
  destruct (tfidf_fit_transform _ _) as [tfidf|e]; [|discriminate].
  destruct (cosine_similarity tfidf) as [sim|e]; [|discriminate].
  intro H. injection H as <-. reflexivity.
Qed.

Lemma trained_content_catalog {E : Externals} (self : ContentBasedFilter.t)
      (bf : list Catalog.Book) (cs : matrix) :
  trained_content self bf cs -> ContentBasedFilter.book_features self = Some bf.
Proof.
  intros [[before Htrain] _]. exact (content_train_catalog before self bf Htrain).
Qed.

(** On an index without repeated labels, [index_get_loc] is [get_loc]: every
    label has one position. *)
Lemma occurrences_absent (label : string) (idx : list string) :
  ~ In label idx -> occurrences label idx = 0%nat.
Proof.
  induction idx as [|x idx IH]; simpl; intro H; [reflexivity|].
  destruct (String.eqb label x) eqn:Hx.
  - apply String.eqb_eq in Hx. subst. exfalso. apply H. now left.
  - apply IH. intro Hin. apply H. now right.
Qed.

Lemma occurrences_unique (label : string) (idx : list string) :
  NoDup idx -> In label idx -> occurrences label idx = 1%nat.
Proof.
  induction 1 as [|x idx Hx Hnd IH]; simpl; intro Hin; [contradiction|].
  destruct (String.eqb label x) eqn:Hlx.
  - apply String.eqb_eq in Hlx. subst. now rewrite occurrences_absent.
  - destruct Hin as [->|Hin]; [now rewrite String.eqb_refl in Hlx|]. now apply IH.
Qed.

Lemma index_get_loc_unique (idx : list string) (label : string) :
  NoDup idx ->
  index_get_loc idx label = (i <- get_loc idx label ;; Ok (At i)).
Proof.
  intro Hnd. unfold index_get_loc, get_loc.
  destruct (position label idx) as [i|] eqn:Hp; [|reflexivity].
  rewrite (occurrences_unique label idx Hnd (position_Some_In _ _ _ Hp)).
  reflexivity.
Qed.

Section ContentFacts.
Import Catalog ContentBasedFilter.
Context {E : Externals}.

Variables (self : t) (bf : list Book) (cs : matrix).
Hypothesis Htrained : trained_content self bf cs.
Hypothesis Hdistinct : NoDup (map book_id bf).

Let ids := map book_id bf.

Lemma similarity_defined (a b : string) :
  In a ids -> In b ids ->
  exists x, content_similarity_at cs ids a b = Ok x /\ 0 <= x.
Proof.
  destruct Htrained as [_ [_ [Hlen Hrows]]].
  intros Ha Hb. unfold content_similarity_at, get_loc.
  destruct (position_of_In _ _ Ha) as [i Hi].
  destruct (position_of_In _ _ Hb) as [j Hj]. rewrite Hi, Hj. simpl.
  apply position_lt in Hi, Hj. unfold ids in Hi, Hj. rewrite length_map in Hi, Hj.
  unfold row_at. destruct (nth_error cs i) as [row|] eqn:Hrow.
  - simpl. apply nth_error_In in Hrow. rewrite Forall_forall in Hrows.
    destruct (Hrows row Hrow) as [Hrl Hpos].
    unfold item_at. destruct (nth_error row j) as [x|] eqn:Hx.
    + exists x. split; [reflexivity|]. apply nth_error_In in Hx.
      rewrite Forall_forall in Hpos. now apply Hpos.
    + apply nth_error_None in Hx. lia.
  - apply nth_error_None in Hrow. lia.
Qed.

(** With one position per label, the two subscripts of a turn of the loop
    select one cell of the similarity matrix. *)
Lemma similarity_step_cell (book h : string) (i : nat) (acc x : Q) :
  get_loc ids book = Ok i ->
  In h ids ->
  content_similarity_at cs ids book h = Ok x ->
  similarity_step self ids (At i) acc h = Ok (Py.max acc x).
Proof.
  intros Hi Hh Hx. destruct Htrained as [_ [Hcs _]]. pose proof Hdistinct as Hnd.
  unfold similarity_step. rewrite (proj2 (mem_In h ids) Hh).
  rewrite (index_get_loc_unique ids h Hnd).
  unfold content_similarity_at in Hx. rewrite Hi in Hx. cbn [Py.bind] in Hx.
  destruct (get_loc ids h) as [j|e]; cbn [Py.bind] in Hx |- *; [|discriminate].
  rewrite Hcs. unfold getitem at 1. unfold pick at 1.
  unfold row_at in Hx.
  destruct (nth_error cs i) as [row|]; cbn [Py.bind] in Hx |- *; [|discriminate].
  unfold getitem, pick. unfold item_at in Hx.
  destruct (nth_error row j) as [y|]; cbn [Py.bind] in Hx |- *; [|discriminate].
  injection Hx as ->. reflexivity.
Qed.

(** The loop over the reading history: the similarities to the history
    items found in the catalog, folded with [max]. *)
Lemma similarity_loop (book : string) (i : nat) (history : list string) (acc : Q) :
  get_loc ids book = Ok i ->
  exists sims,
    Forall2 (fun h x => content_similarity_at cs ids book h = Ok x)
            (filter (fun h => mem h ids) history) sims /\
    Forall (Qle 0) sims /\
    for_each (similarity_step self ids (At i)) history acc
    = Ok (fold_left Py.max sims acc).
Proof.
  intro Hi. assert (Hbook : In book ids).
  { unfold get_loc in Hi. destruct (position book ids) eqn:Hp; [|discriminate].
    eapply position_Some_In; eassumption. }
  revert acc. induction history as [|h history IH]; intro acc; simpl.
  - exists []. repeat split; constructor.
  - destruct (mem h ids) eqn:Hmem.
    + apply mem_In in Hmem.
      destruct (similarity_defined book h Hbook Hmem) as [x [Hx Hpos]].
      rewrite (similarity_step_cell book h i acc x Hi Hmem Hx). cbn [Py.bind].
      destruct (IH (Py.max acc x)) as [sims [Hsims [Hnn Hloop]]].
      exists (x :: sims). split; [|split; [now constructor|exact Hloop]].
      now constructor.
    + unfold similarity_step at 1. rewrite Hmem. cbn [Py.bind]. apply IH.
Qed.

End ContentFacts.

Lemma collect_total {A B : Type} (f : A -> result (option B)) (xs : list A) :
  (forall x, In x xs -> exists o, f x = Ok o) ->
  exists ys, collect f xs = Ok ys.
Proof.
  induction xs as [|x xs IH]; simpl; intro H; [eauto|].
  destruct (H x (or_introl eq_refl)) as [o Ho]. rewrite Ho. simpl.
  destruct (IH (fun y Hy => H y (or_intror Hy))) as [ys Hys]. rewrite Hys. simpl.
  eauto.
Qed.

Section ContentClaim.
Import Catalog ContentBasedFilter.
Context {E : Externals}.

Lemma content_score_value (self : t) (bf : list Book) (cs : matrix)
      (profile : UserProfile) (book : Book) :
  trained_content self bf cs ->
  NoDup (map book_id bf) ->
  In book bf ->
  exists s sims best,
    calculate_content_score self book profile = Ok s /\
    Forall2 (fun h x =>
               content_similarity_at cs (map book_id bf) (book_id book) h = Ok x)
            (filter (fun h => mem h (map book_id bf)) (reading_history profile))
            sims /\
    (sims = [] -> best = 0) /\
    (sims <> [] ->
     (exists x, In x sims /\ x == best) /\ Forall (fun x => x <= best) sims) /\
    s == 0.4 * indicator (cell_in (genre book) (preferred_genres profile))
         + 0.3 * indicator (cell_in (author book) (favorite_authors profile))
         + 0.3 * best.
Proof.
  intros Ht Hnd Hbook. unfold calculate_content_score.
  destruct (reading_history profile) as [|h0 history] eqn:Hh.
  - exists (if cell_in (author book) (favorite_authors profile)
            then (if cell_in (genre book) (preferred_genres profile)
                  then 0 + 0.4 else 0) + 0.3
            else (if cell_in (genre book) (preferred_genres profile)
                  then 0 + 0.4 else 0)), [], 0.
    split; [reflexivity|]. split; [constructor|]. split; [reflexivity|].
    split; [congruence|].
    destruct (cell_in (genre book) _), (cell_in (author book) _);
      unfold indicator; ring.
  - rewrite (trained_content_catalog self bf cs Ht).
    assert (Hin : In (book_id book) (map book_id bf)) by now apply in_map.
    destruct (position_of_In _ _ Hin) as [i Hi].
    assert (Hloc : get_loc (map book_id bf) (book_id book) = Ok i)
      by (unfold get_loc; now rewrite Hi).
    rewrite (index_get_loc_unique _ _ Hnd).
    rewrite Hloc. cbn [Py.bind].
    destruct (similarity_loop self bf cs Ht Hnd (book_id book) i (h0 :: history) 0
                Hloc)
      as [sims [Hsims [Hnn Hloop]]].
    rewrite Hloop. cbn [Py.bind].
    eexists. exists sims, (fold_left Py.max sims 0).
    split; [reflexivity|]. split; [exact Hsims|].
    split; [intros ->; reflexivity|].
    split; [now apply running_max_nonneg|].
    destruct (cell_in (genre book) _), (cell_in (author book) _);
      unfold indicator; ring.
Qed.

Lemma content_candidate_inv (self : t) (profile : UserProfile) (book : Book)
      (rec : ContentRec) :
  candidate self profile book = Ok (Some rec) ->
  book_id book = content_book_id rec /\
  ~ In (book_id book) (reading_history profile) /\
  calculate_content_score self book profile = Ok (content_score rec).
Proof.
  unfold candidate.
  destruct (mem (book_id book) (reading_history profile)) eqn:Hmem; simpl;
    [discriminate|].
  destruct (calculate_content_score self book profile) as [s|e]; simpl;
    [|discriminate].
  intro H. injection H as <-. simpl. split; [reflexivity|]. split; [|reflexivity].
  intro Hin. apply mem_In in Hin. congruence.
Qed.


End ContentClaim.

(** * The score table of the hybrid engine *)

Lemma dict_get_set {V : Type} (d : dict V) (k k' : string) (v default : V) :
  dict_get (dict_set d k v) k' default
  = if String.eqb k' k then v else dict_get d k' default.
Proof.
  induction d as [|[k0 v0] d IH]; simpl.
  - destruct (String.eqb k' k); reflexivity.
  - destruct (String.eqb k k0) eqn:Hk; simpl.
    + apply String.eqb_eq in Hk. subst k0.
      destruct (String.eqb k' k); reflexivity.
    + destruct (String.eqb k' k0) eqn:Hk'.
      * apply String.eqb_eq in Hk'. subst k0.
        rewrite String.eqb_sym, Hk. reflexivity.
      * exact IH.
Qed.

Lemma dict_set_keys {V : Type} (d : dict V) (k : string) (v : V) :
  map fst (dict_set d k v)
  = if mem k (map fst d) then map fst d else map fst d ++ [k].
Proof.
  unfold mem. induction d as [|[k0 v0] d IH]; simpl; [reflexivity|].
  destruct (String.eqb k k0); simpl; [reflexivity|].
  rewrite IH. destruct (existsb (String.eqb k) (map fst d)); reflexivity.
Qed.

Lemma dict_get_In {V : Type} (d : dict V) (k : string) (v default : V) :
  NoDup (map fst d) -> In (k, v) d -> dict_get d k default = v.
Proof.
  induction d as [|[k0 v0] d IH]; simpl; intros Hnd Hin; [destruct Hin|].
  inversion Hnd as [|? ? Hnot Hnd']; subst.
  destruct Hin as [Heq|Hin].
  - injection Heq as -> ->. now rewrite String.eqb_refl.
  - destruct (String.eqb k k0) eqn:Hk; [|now apply IH].
    apply String.eqb_eq in Hk. subst k0. exfalso. apply Hnot.
    change k with (fst (k, v)). now apply in_map.
Qed.

Lemma filter_filter {A : Type} (f g : A -> bool) (l : list A) :
  filter f (filter g l) = filter (fun x => g x && f x) l.
Proof.
  induction l as [|x l IH]; simpl; [reflexivity|].
  destruct (g x); simpl; [|assumption].
  destruct (f x); [now rewrite IH|assumption].
Qed.

Lemma mem_app (k : string) (l1 l2 : list string) :
  mem k (l1 ++ l2) = mem k l1 || mem k l2.
Proof. unfold mem. apply existsb_app. Qed.

(** The keys of the table after a run of updates: the keys it had, then the
    new items in order of first occurrence. *)
Lemma add_entries_keys (es : list (string * Q)) (d : dict Q) :
  map fst (fold_left add_entry es d)
  = map fst d
    ++ filter (fun k => negb (mem k (map fst d))) (keep_first (map fst es)).
Proof.
  revert d. induction es as [|[k v] es IH]; intro d; simpl.
  - now rewrite app_nil_r.
  - rewrite IH. unfold add_entry at 1 2. simpl. rewrite dict_set_keys.
    destruct (mem k (map fst d)) eqn:Hmem; simpl.
    + f_equal. rewrite filter_filter. apply filter_ext_in. intros x _.
      destruct (String.eqb x k) eqn:Hx; simpl; [|reflexivity].
      apply String.eqb_eq in Hx. subst x. now rewrite Hmem.
    + rewrite <- app_assoc. simpl. do 2 f_equal.
      rewrite filter_filter. apply filter_ext. intro x.
      rewrite mem_app, negb_orb. unfold mem at 2. simpl.
      rewrite orb_false_r, andb_comm. reflexivity.
Qed.

Lemma filter_all {A : Type} (l : list A) : filter (fun _ => true) l = l.
Proof. induction l as [|x l IH]; simpl; [reflexivity|now rewrite IH]. Qed.

(** The value the table holds for an item after a run of updates: what it
    held, plus the updates for that item. *)
Lemma add_entries_value (es : list (string * Q)) (d : dict Q) (item : string) :
  dict_get (fold_left add_entry es d) item 0
  == dict_get d item 0 + entry_total item es.
Proof.
  revert d. induction es as [|[k v] es IH]; intro d; simpl.
  - unfold entry_total, score_sum. simpl. ring.
  - rewrite IH. unfold add_entry, entry_total, score_sum. simpl.
    rewrite dict_get_set. rewrite (String.eqb_sym k item).
    destruct (String.eqb item k) eqn:Hk; simpl.
    + apply String.eqb_eq in Hk. subst k. ring.
    + ring.
Qed.

(** ** Order of first occurrence *)

Lemma StronglySorted_filter {A : Type} (R : A -> A -> Prop) (f : A -> bool)
      (l : list A) :
  StronglySorted R l -> StronglySorted R (filter f l).
Proof.
  induction 1 as [|x l Hs IH Hx]; simpl; [constructor|].
  destruct (f x); [|assumption]. constructor; [assumption|].
  apply Forall_forall. intros y Hy. apply filter_In in Hy.
  rewrite Forall_forall in Hx. now apply Hx.
Qed.

Lemma StronglySorted_weaken {A : Type} (R R' : A -> A -> Prop) (l : list A) :
  (forall a b, In a l -> In b l -> R a b -> R' a b) ->
  StronglySorted R l -> StronglySorted R' l.
Proof.
  intros H Hs. induction Hs as [|x l Hs IH Hx]; [constructor|].
  constructor.
  - apply IH. intros a b Ha Hb. apply H; now right.
  - apply Forall_forall. intros y Hy. rewrite Forall_forall in Hx.
    apply H; [now left|now right|now apply Hx].
Qed.

Lemma StronglySorted_map {A B : Type} (R : B -> B -> Prop) (f : A -> B)
      (l : list A) :
  StronglySorted R (map f l) -> StronglySorted (fun a b => R (f a) (f b)) l.
Proof.
  induction l as [|x l IH]; simpl; intro H; [constructor|].
  inversion H as [|? ? Hs Hx]; subst. constructor; [now apply IH|].
  apply Forall_forall. intros y Hy. rewrite Forall_forall in Hx.
  apply Hx. now apply in_map.
Qed.

Lemma StronglySorted_map_intro {A B : Type} (R : B -> B -> Prop) (f : A -> B)
      (l : list A) :
  StronglySorted (fun a b => R (f a) (f b)) l -> StronglySorted R (map f l).
Proof.
  induction 1 as [|x l Hs IH Hx]; simpl; constructor; [assumption|].
  apply Forall_forall. intros y Hy. apply in_map_iff in Hy.
  destruct Hy as [a [<- Ha]]. rewrite Forall_forall in Hx. now apply Hx.
Qed.

Lemma keep_first_In (l : list string) (x : string) :
  In x (keep_first l) <-> In x l.
Proof.
  induction l as [|y l IH]; simpl; [tauto|].
  rewrite filter_In, IH, negb_true_iff, String.eqb_neq.
  destruct (string_dec y x) as [->|Hne]; [tauto|].
  split; [tauto|]. intros [H|H]; [tauto|]. right. split; [assumption|congruence].
Qed.

Lemma keep_first_NoDup (l : list string) : NoDup (keep_first l).
Proof.
  induction l as [|y l IH]; simpl; constructor.
  - rewrite filter_In, String.eqb_refl. simpl. intros [_ H]. discriminate.
  - now apply NoDup_filter.
Qed.

Lemma keep_first_order (l : list string) :
  StronglySorted (first_seen_before l) (keep_first l).
Proof.
  induction l as [|y l IH]; simpl; constructor.
  - apply StronglySorted_filter with (f := fun z => negb (String.eqb z y)) in IH.
    revert IH. apply StronglySorted_weaken. intros a b Ha Hb Hab.
    apply filter_In in Ha, Hb. destruct Ha as [_ Ha], Hb as [_ Hb].
    apply negb_true_iff in Ha, Hb.
    unfold first_seen_before in *. simpl. rewrite Ha, Hb. lia.
  - apply Forall_forall. intros z Hz. apply filter_In in Hz.
    destruct Hz as [_ Hz]. apply negb_true_iff in Hz.
    unfold first_seen_before. simpl. rewrite String.eqb_refl, Hz. lia.
Qed.

(** ** Sums of weighted scores *)

Lemma score_sum_app {A : Type} (id : A -> string) (score : A -> Q)
      (item : string) (l1 l2 : list A) :
  score_sum id score item (l1 ++ l2)
  == score_sum id score item l1 + score_sum id score item l2.
Proof.
  unfold score_sum. induction l1 as [|x l1 IH]; simpl; [ring|].
  destruct (String.eqb (id x) item); simpl; [rewrite IH; ring|exact IH].
Qed.

Lemma score_sum_weighted {A : Type} (id : A -> string) (score : A -> Q)
      (w : Q) (item : string) (l : list A) :
  entry_total item (map (fun r => (id r, w * score r)) l)
  == w * score_sum id score item l.
Proof.
  unfold entry_total, score_sum. induction l as [|x l IH]; simpl; [ring|].
  destruct (String.eqb (id x) item); simpl; [rewrite IH; ring|exact IH].
Qed.

Lemma weighted_entries_total (collab_recs : list CollabRec)
      (content_recs : list ContentRec) (social_recs : list SocialRec)
      (item : string) :
  entry_total item (weighted_entries collab_recs content_recs social_recs)
  == 0.4 * score_sum collab_book_id predicted_rating item collab_recs
     + 0.35 * score_sum content_book_id content_score item content_recs
     + 0.25 * score_sum social_book_id social_score item social_recs.
Proof.
  unfold weighted_entries, entry_total.
  rewrite !score_sum_app.
  pose proof (score_sum_weighted collab_book_id predicted_rating 0.4 item
                collab_recs) as H1.
  pose proof (score_sum_weighted content_book_id content_score 0.35 item
                content_recs) as H2.
  pose proof (score_sum_weighted social_book_id social_score 0.25 item
                social_recs) as H3.
  unfold entry_total in H1, H2, H3. rewrite H1, H2, H3. ring.
Qed.

Lemma weighted_entries_ids (collab_recs : list CollabRec)
      (content_recs : list ContentRec) (social_recs : list SocialRec) :
  map fst (weighted_entries collab_recs content_recs social_recs)
  = map collab_book_id collab_recs ++ map content_book_id content_recs
    ++ map social_book_id social_recs.
Proof.
  unfold weighted_entries. rewrite !map_app, !map_map. reflexivity.
Qed.

(** The three loops make the table that the updates make one by one. *)
Lemma book_scores_fold (collab_recs : list CollabRec)
      (content_recs : list ContentRec) (social_recs : list SocialRec) :
  HybridRecommendationEngine.combine_recommendations collab_recs content_recs
    social_recs
  = sort_desc combined_score
      (map (fun item => mkHybridRec (fst item) (snd item) "hybrid")
           (fold_left add_entry
                      (weighted_entries collab_recs content_recs social_recs) [])).
Proof.
  unfold HybridRecommendationEngine.combine_recommendations, weighted_entries.
  rewrite !fold_left_app. do 2 f_equal.
  assert (Hmap : forall (A : Type) (f : A -> string * Q) (l : list A) (d : dict Q),
             fold_left add_entry (map f l) d
             = fold_left (fun d r => add_entry d (f r)) l d).
  { intros A f l. induction l as [|x l IH]; intro d; simpl; [reflexivity|].
    apply IH. }
  rewrite !Hmap. reflexivity.
Qed.

Lemma book_scores_keys (collab_recs : list CollabRec)
      (content_recs : list ContentRec) (social_recs : list SocialRec) :
  map fst (fold_left add_entry
             (weighted_entries collab_recs content_recs social_recs) [])
  = keep_first (map collab_book_id collab_recs
                ++ map content_book_id content_recs
                ++ map social_book_id social_recs).
Proof.
  rewrite add_entries_keys, weighted_entries_ids. simpl. apply filter_all.
Qed.

Lemma combined_ids (collab_recs : list CollabRec)
      (content_recs : list ContentRec) (social_recs : list SocialRec) :
  Permutation
    (map hybrid_book_id
       (HybridRecommendationEngine.combine_recommendations collab_recs
          content_recs social_recs))
    (keep_first (map collab_book_id collab_recs
                 ++ map content_book_id content_recs
                 ++ map social_book_id social_recs)).
Proof.
  rewrite book_scores_fold, <- book_scores_keys.
  rewrite (Permutation_map hybrid_book_id (sort_desc_perm combined_score _)).
  rewrite map_map. reflexivity.
Qed.

(** * Hybrid ranking *)

Section HybridClaims.
Import HybridRecommendationEngine.

(** C1, with the order of ties the code has. The combined list has one
    entry for each item id found in any of the three lists; its score is
    [0.4 * collab + 0.35 * content + 0.25 * social], each term taken over
    the entries its list has for the item and 0 for a list without the
    item; scores descend, and entries of equal score are in the order in
    which their ids first occur in the collaborative, then the content,
    then the social list. *)
Theorem combine_recommendations_ranking (collab_recs : list CollabRec)
        (content_recs : list ContentRec) (social_recs : list SocialRec) :
  let out := combine_recommendations collab_recs content_recs social_recs in
  let ids := map collab_book_id collab_recs
             ++ map content_book_id content_recs
             ++ map social_book_id social_recs in
  NoDup (map hybrid_book_id out) /\
  (forall item, In item (map hybrid_book_id out) <-> In item ids) /\
  (forall r, In r out ->
     combined_score r
     == 0.4 * score_sum collab_book_id predicted_rating (hybrid_book_id r)
                collab_recs
        + 0.35 * score_sum content_book_id content_score (hybrid_book_id r)
                   content_recs
        + 0.25 * score_sum social_book_id social_score (hybrid_book_id r)
                   social_recs) /\
  StronglySorted
    (desc_then combined_score
       (fun x y => first_seen_before ids (hybrid_book_id x) (hybrid_book_id y)))
    out.
Proof.
  intros out ids. subst out.
  pose proof (combined_ids collab_recs content_recs social_recs) as Hperm.
  pose proof (book_scores_keys collab_recs content_recs social_recs) as Hkeys.
  fold ids in Hperm, Hkeys. revert Hperm. rewrite book_scores_fold.
  set (es := weighted_entries collab_recs content_recs social_recs) in *.
  set (d := fold_left add_entry es []) in *.
  set (mk_rec := fun item : string * Q => mkHybridRec (fst item) (snd item) "hybrid").
  intro Hperm.
  split; [|split; [|split]].
  - apply (Permutation_NoDup (Permutation_sym Hperm)), keep_first_NoDup.
  - intro item. rewrite <- (keep_first_In ids). split; apply Permutation_in;
      [exact Hperm|exact (Permutation_sym Hperm)].
  - intros r Hr. apply sort_desc_In, in_map_iff in Hr.
    destruct Hr as [[k v] [<- Hkv]]. simpl.
    assert (Hget : dict_get d k 0 = v).
    { apply dict_get_In; [|assumption]. rewrite Hkeys. apply keep_first_NoDup. }
    rewrite <- Hget. unfold d. rewrite add_entries_value. simpl.
    rewrite Qplus_0_l. apply weighted_entries_total.
  - apply sort_desc_stable.
    apply StronglySorted_map_intro.
    apply (StronglySorted_map (first_seen_before ids) fst).
    rewrite Hkeys. apply keep_first_order.
Qed.

(** Two content candidates of equal score come out in catalog order, here
    ["i3"] before ["i1"], not in ascending order of item id. *)
Lemma combine_ties_not_by_item_id :
  ~ StronglySorted
      (desc_then combined_score
         (fun x y => label_lt (hybrid_book_id x) (hybrid_book_id y)))
      (combine_recommendations []
         [mkContentRec "i3" 0.4 "content_based";
          mkContentRec "i1" 0.4 "content_based"] []).
Proof.
  intro H. inversion H as [|x l _ Hx]; subst.
  inversion Hx as [|y l' Hxy _]; subst.
  destruct Hxy as [Hlt|[_ Hid]].
  - vm_compute in Hlt. discriminate.
  - vm_compute in Hid. discriminate.
Qed.

End HybridClaims.

Section HybridOutput.
Import HybridRecommendationEngine.

Lemma content_recommendations_unread (self : ContentBasedFilter.t)
      (profile : UserProfile) (n : Z) (recs : list ContentRec) (c : ContentRec) :
  ContentBasedFilter.get_content_recommendations self profile n = Ok recs ->
  In c recs -> ~ In (content_book_id c) (reading_history profile).
Proof.
  unfold ContentBasedFilter.get_content_recommendations.
  destruct (ContentBasedFilter.book_features self) as [bf|]; [|discriminate].
  destruct (collect _ bf) as [full|e] eqn:Hfull; simpl; [|discriminate].
  intro H. injection H as <-. intro Hc.
  apply slice_to_In, sort_desc_In in Hc.
  destruct (collect_In _ _ _ _ Hfull Hc) as [book [_ Hcand]].
  destruct (content_candidate_inv _ _ _ _ Hcand) as [<- [Hnot _]]. exact Hnot.
Qed.

(** C4, as the code has it. For [n >= 0] the hybrid output has at most
    [n] entries; each is an item of the collaborative, content or social
    candidates requested with [2 * n]; no content candidate is in the
    reading history, so an entry that is in the reading history was
    proposed by the collaborative filter or by the social analyzer. *)
Theorem hybrid_output_bounded {E : Externals} (engine : t) (user : string)
        (profile : UserProfile) (n : Z) (recs : list HybridRec) :
  get_recommendations engine user profile n = Ok recs ->
  ((0 <= n)%Z -> (List.length recs <= Z.to_nat n)%nat) /\
  exists collab_recs content_recs social_recs,
    CollaborativeFilter.get_user_recommendations (collaborative_filter engine)
      user (n * 2)%Z = Ok collab_recs /\
    ContentBasedFilter.get_content_recommendations (content_filter engine)
      profile (n * 2)%Z = Ok content_recs /\
    get_social_recommendations profile (n * 2)%Z = Ok social_recs /\
    (forall c, In c content_recs ->
               ~ In (content_book_id c) (reading_history profile)) /\
    (forall r, In r recs ->
               In (hybrid_book_id r) (map collab_book_id collab_recs)
               \/ In (hybrid_book_id r) (map content_book_id content_recs)
               \/ In (hybrid_book_id r) (map social_book_id social_recs)) /\
    (forall r, In r recs ->
               In (hybrid_book_id r) (reading_history profile) ->
               In (hybrid_book_id r) (map collab_book_id collab_recs)
               \/ In (hybrid_book_id r) (map social_book_id social_recs)).
Proof.
  unfold get_recommendations.
  destruct (CollaborativeFilter.get_user_recommendations _ user (n * 2)%Z)
    as [collab_recs|e] eqn:Hcollab; simpl; [|discriminate].
  destruct (ContentBasedFilter.get_content_recommendations _ profile (n * 2)%Z)
    as [content_recs|e] eqn:Hcontent; simpl; [|discriminate].
  destruct (get_social_recommendations profile (n * 2)%Z)
    as [social_recs|e] eqn:Hsocial; simpl; [|discriminate].
  intro H. injection H as <-.
  split; [intro Hn; now apply slice_to_length|].
  exists collab_recs, content_recs, social_recs.
  assert (Hsrc : forall r,
             In r (slice_to n (combine_recommendations collab_recs content_recs
                                 social_recs)) ->
             In (hybrid_book_id r) (map collab_book_id collab_recs)
             \/ In (hybrid_book_id r) (map content_book_id content_recs)
             \/ In (hybrid_book_id r) (map social_book_id social_recs)).
  { intros r Hr. apply slice_to_In in Hr.
    rewrite <- !in_app_iff. apply keep_first_In.
    apply (Permutation_in _ (combined_ids collab_recs content_recs social_recs)).
    now apply in_map. }
  assert (Hunread := fun c => content_recommendations_unread _ _ _ _ c Hcontent).
  repeat (split; [first [reflexivity | assumption]|]).
  intros r Hr Hread. destruct (Hsrc r Hr) as [Hc|[Hc|Hc]]; [now left| |now right].
  exfalso. apply in_map_iff in Hc. destruct Hc as [c [Hid Hc]].
  apply (Hunread c Hc). now rewrite Hid.
Qed.

End HybridOutput.

Lemma hybrid_output_bounded_witness :
  exists recs,
    HybridRecommendationEngine.get_recommendations (E := Sample.externals)
      Sample.engine "u1" Sample.romance_reader 2 = Ok recs /\
    (List.length recs <= 2)%nat.
Proof.
  eexists. split; [vm_compute; reflexivity|].
  refine (proj1 (hybrid_output_bounded (E := Sample.externals) Sample.engine "u1"
                   Sample.romance_reader 2 _ _) _).
  - vm_compute. reflexivity.
  - lia.
Defined.

(** The hybrid engine returns ["i3"] to a user whose reading history holds
    ["i3"]: the collaborative filter proposes it, the user having no rating
    for it. *)
Lemma hybrid_returns_read_item :
  exists recs,
    HybridRecommendationEngine.get_recommendations (E := Sample.externals)
      Sample.engine "u1" Sample.read_i3 10 = Ok recs /\
    In "i3" (map hybrid_book_id recs) /\
    In "i3" (reading_history Sample.read_i3).
Proof.
  eexists. split; [vm_compute; reflexivity|].
  split; simpl; now left.
Qed.

Lemma sample_content_trained :
  trained_content (E := Sample.externals) Sample.content Sample.catalog
    [[1; 1; 1]; [1; 1; 1]; [1; 1; 1]].
Proof.
  unfold trained_content. split; [exists ContentBasedFilter.init; reflexivity|].
  repeat split. repeat constructor; discriminate.
Defined.

Lemma sample_catalog_distinct : NoDup (map Catalog.book_id Sample.catalog).
Proof. repeat constructor; simpl; intuition discriminate. Defined.



(** * A known user gets an answer

    With library routines that keep the shapes of their arguments (one row
    of factors per row of data, a square similarity matrix, [argsort]
    returning positions of its argument), a recommendation request for a
    user of the training table returns a list. *)

Lemma for_each_total {A S : Type} (body : S -> A -> result S) (xs : list A)
      (acc : S) :
  (forall a x, In x xs -> exists a', body a x = Ok a') ->
  exists r, for_each body xs acc = Ok r.
Proof.
  revert acc. induction xs as [|x xs IH]; intros acc H; simpl; [eauto|].
  destruct (H acc x (or_introl eq_refl)) as [a' Ha]. rewrite Ha. simpl.
  apply IH. intros a y Hy. apply H. now right.
Qed.

Lemma slice_In {A : Type} (lo hi : Z) (l : list A) (x : A) :
  In x (slice lo hi l) -> In x l.
Proof.
  unfold slice. intro H.
  set (a := clamp (Z.of_nat (List.length l)) lo) in *.
  set (k := (clamp (Z.of_nat (List.length l)) hi - a)%nat) in *.
  rewrite <- (firstn_skipn a l). apply in_or_app. right.
  rewrite <- (firstn_skipn k (skipn a l)). apply in_or_app. now left.
Qed.

Lemma pivot_shape (rs : list Rating) (p : Frame (option Q)) :
  pivot rs = Ok p ->
  List.length (values (fillna 0 p)) = List.length (index (fillna 0 p)) /\
  Forall (fun row => List.length row = List.length (columns (fillna 0 p)))
         (values (fillna 0 p)).
Proof.
  unfold pivot. destruct (has_duplicates rs); [discriminate|].
  intro H. injection H as <-. unfold fillna. simpl. split.
  - now rewrite !length_map.
  - apply Forall_forall. intros row Hrow.
    apply in_map_iff in Hrow. destruct Hrow as [row' [<- Hrow']].
    apply in_map_iff in Hrow'. destruct Hrow' as [u [<- _]].
    now rewrite !length_map.
Qed.

Lemma series_get_total (cols : list string) (row : list Q) (b : string) :
  In b cols -> List.length row = List.length cols ->
  exists r, series_get (mkSeries cols row) b = Ok r.
Proof.
  intros Hb Hlen. unfold series_get, get_loc. simpl.
  destruct (position_of_In _ _ Hb) as [j Hj]. rewrite Hj. simpl.
  apply position_lt in Hj.
  destruct (nth_error row j) as [r|] eqn:Hr; [eauto|].
  apply nth_error_None in Hr. lia.
Qed.

Lemma iloc_total (m : DataFrame) (i : nat) :
  (i < List.length (values m))%nat ->
  Forall (fun row => List.length row = List.length (columns m)) (values m) ->
  exists row, iloc m i = Ok (mkSeries (columns m) row) /\
              List.length row = List.length (columns m).
Proof.
  intros Hi Hrows. unfold iloc.
  destruct (nth_error (values m) i) as [row|] eqn:Hrow.
  - exists row. split; [reflexivity|]. apply nth_error_In in Hrow.
    rewrite Forall_forall in Hrows. now apply Hrows.
  - apply nth_error_None in Hrow. lia.
Qed.

Section KnownUser.
Import CollaborativeFilter.
Context {E : Externals}.

Hypothesis svd_rows : forall k seed X U C,
    svd_fit k seed X = Ok (U, C) -> List.length U = List.length X.
Hypothesis cosine_square : forall X S,
    cosine_similarity X = Ok S ->
    List.length S = List.length X /\
    Forall (fun row => List.length row = List.length X) S.
Hypothesis argsort_range : forall v,
    Forall (fun i => (i < List.length v)%nat) (argsort v).

Lemma train_state (self self' : t) (rs : list Rating) :
  train self rs = (self', Ok tt) ->
  exists p us,
    pivot rs = Ok p /\
    user_item_matrix self' = Some (fillna 0 p) /\
    user_similarity self' = Some us /\
    List.length us = List.length (values (fillna 0 p)) /\
    Forall (fun row => List.length row = List.length us) us.
Proof.
  unfold train. destruct (pivot rs) as [p|e]; [|intro H; discriminate].
  unfold fit_transform.
  cbn [svd n_components user_item_matrix user_similarity item_similarity].
  destruct (svd_fit _ _ _) as [[U C]|e] eqn:Hfit; simpl; [|intro H; discriminate].
  destruct (cosine_similarity U) as [us|e] eqn:Hus; [|intro H; discriminate].
  destruct (cosine_similarity (transpose C)) as [its|e]; [|intro H; discriminate].
  intro H. injection H as <-. exists p, us. simpl.
  destruct (cosine_square _ _ Hus) as [Hlen Hrows].
  rewrite (svd_rows _ _ _ _ _ Hfit) in Hlen.
  repeat split; try assumption. now rewrite Hlen, <- (svd_rows _ _ _ _ _ Hfit).
Qed.

Lemma similar_users_total (self : t) (us : matrix) (idx : nat) (top_k : Z) :
  user_similarity self = Some us ->
  (idx < List.length us)%nat ->
  Forall (fun row => List.length row = List.length us) us ->
  exists similar,
    get_similar_users self idx top_k = Ok similar /\
    Forall (fun nb => (fst nb < List.length us)%nat) similar.
Proof.
  intros Hus Hidx Hrows. unfold get_similar_users, row_at. rewrite Hus.
  destruct (nth_error us idx) as [sims|] eqn:Hsims;
    [|apply nth_error_None in Hsims; lia].
  simpl. apply nth_error_In in Hsims.
  rewrite Forall_forall in Hrows. rewrite <- (Hrows sims Hsims).
  set (ixs := slice 1 (top_k + 1) (rev (argsort sims))).
  assert (Hixs : Forall (fun i => (i < List.length sims)%nat) ixs).
  { apply Forall_forall. intros i Hi. unfold ixs in Hi.
    apply slice_In, in_rev in Hi.
    pose proof (argsort_range sims) as Hr. rewrite Forall_forall in Hr.
    now apply Hr. }
  clearbody ixs. induction ixs as [|i ixs IH]; simpl.
  - exists []. split; [reflexivity|constructor].
  - inversion Hixs as [|? ? Hi Hixs']; subst.
    unfold item_at at 1. destruct (nth_error sims i) as [s|] eqn:Hs;
      [|apply nth_error_None in Hs; lia].
    simpl. destruct (IH Hixs') as [rest [Hrest Hall]]. rewrite Hrest. simpl.
    exists ((i, s) :: rest). split; [reflexivity|]. now constructor.
Qed.

Lemma predict_rating_total (self : t) (m : DataFrame) (idx : nat) (b : string)
      (similar : list (nat * Q)) :
  user_item_matrix self = Some m ->
  Forall (fun row => List.length row = List.length (columns m)) (values m) ->
  In b (columns m) ->
  Forall (fun nb => (fst nb < List.length (values m))%nat) similar ->
  exists p, predict_rating self idx b similar = Ok p.
Proof.
  intros Hm Hrows Hb Hsim. unfold predict_rating.
  destruct (for_each_total (predict_step self b) similar (0, 0)) as [[w s] Hloop].
  { intros [w s] [i sim] Hin. unfold predict_step. rewrite Hm.
    rewrite Forall_forall in Hsim. specialize (Hsim _ Hin). simpl in Hsim.
    destruct (iloc_total m i Hsim Hrows) as [row [Hrow Hlen]]. rewrite Hrow. simpl.
    destruct (series_get_total (columns m) row b Hb Hlen) as [r Hr].
    rewrite Hr. simpl. destruct (Qlt_bool 0 r); eauto. }
  rewrite Hloop. simpl. destruct (Qeq_bool s 0) eqn:Hs; [eauto|].
  unfold div. rewrite Hs. eauto.
Qed.

Lemma recommend_returns (self self' : t) (rs : list Rating) (user : string)
      (n : Z) :
  train self rs = (self', Ok tt) ->
  In user (map user_id rs) ->
  exists recs, get_user_recommendations self' user n = Ok recs.
Proof.
  intros Ht Hu.
  destruct (train_state _ _ _ Ht) as [p [us [Hp [Hm [Hus [Hlen Hsq]]]]]].
  destruct (pivot_shape rs p Hp) as [Hvals Hrows].
  destruct (pivot_columns rs p Hp) as [_ Hindex].
  remember (fillna 0 p) as m eqn:Heqm. clear Heqm.
  unfold get_user_recommendations. rewrite Hm.
  assert (Hin : In user (index m)) by (rewrite Hindex; now apply sorted_unique_In).
  destruct (position_of_In _ _ Hin) as [idx Hidx].
  unfold get_loc. rewrite Hidx. simpl. apply position_lt in Hidx.
  destruct (iloc_total m idx ltac:(lia) Hrows) as [row [Hrow Hrl]].
  rewrite Hrow. simpl.
  destruct (similar_users_total self' us idx 50 Hus ltac:(lia) Hsq)
    as [similar [Hsim Hrange]].
  rewrite Hsim. simpl.
  destruct (collect_total (candidate self' idx (mkSeries (columns m) row) similar)
                          (columns m)) as [full Hfull].
  { intros b Hb. unfold candidate.
    destruct (series_get_total (columns m) row b Hb Hrl) as [r Hr].
    rewrite Hr. simpl. destruct (Qeq_bool r 0); [|eauto].
    destruct (predict_rating_total self' m idx b similar Hm Hrows Hb) as [q Hq].
    { rewrite <- Hlen. exact Hrange. }
    rewrite Hq. simpl. eauto. }
  rewrite Hfull. simpl. eauto.
Qed.

End KnownUser.

(** * The training matrix *)

Lemma find_none_iff (u b : string) (rs : list Rating) :
  find (same_cell u b) rs = None <->
  forall row, In row rs -> ~ (user_id row = u /\ book_id row = b).
Proof.
  split.
  - intros H row Hrow [Hu Hb].
    pose proof (find_none _ _ H row Hrow) as Hc.
    rewrite <- Hu, <- Hb, same_cell_refl in Hc. discriminate.
  - intro H. destruct (find (same_cell u b) rs) as [row|] eqn:Hf; [|reflexivity].
    apply find_some in Hf. destruct Hf as [Hin Hc]. apply same_cell_eq in Hc.
    exfalso. exact (H row Hin Hc).
Qed.

Lemma rating_at_total (rs : list Rating) (p : Frame (option Q)) (u b : string) :
  pivot rs = Ok p ->
  In u (map user_id rs) -> In b (map book_id rs) ->
  exists r, rating_at (fillna 0 p) u b = Ok r.
Proof.
  intros Hp Hu Hb.
  destruct (pivot_shape rs p Hp) as [Hvals Hrows].
  destruct (pivot_columns rs p Hp) as [Hcols Hindex].
  remember (fillna 0 p) as m eqn:Heqm. clear Heqm.
  assert (Hin : In u (index m)) by (rewrite Hindex; now apply sorted_unique_In).
  assert (Hbin : In b (columns m)) by (rewrite Hcols; now apply sorted_unique_In).
  destruct (position_of_In _ _ Hin) as [i Hi].
  unfold rating_at, get_loc. rewrite Hi. simpl. apply position_lt in Hi.
  destruct (iloc_total m i ltac:(lia) Hrows) as [row [Hrow Hrl]].
  rewrite Hrow. simpl. now apply series_get_total.
Qed.

Section TrainingMatrix.
Import CollaborativeFilter.
Context {E : Externals}.

(** X1. After a successful training every row of the ratings table is found
    again in the matrix: the cell of its user and its book holds its
    rating. *)
Theorem train_stores_ratings (self self' : t) (rs : list Rating) (row : Rating) :
  train self rs = (self', Ok tt) ->
  In row rs ->
  exists m,
    user_item_matrix self' = Some m /\
    rating_at m (user_id row) (book_id row) = Ok (rating row).
Proof.
  intros Ht Hrow. destruct (train_matrix _ _ _ Ht) as [p [Hp Hm]].
  exists (fillna 0 p). split; [assumption|].
  destruct (rating_at_total rs p (user_id row) (book_id row) Hp) as [r Hr];
    [now apply in_map|now apply in_map|].
  rewrite Hr. f_equal. rewrite (pivot_cell _ _ _ _ _ Hp Hr).
  now rewrite (find_unique_row rs row (pivot_no_duplicates rs p Hp) Hrow).
Qed.

(** X2. A user and a book that both occur in the ratings table, but in no
    common row, have the cell 0 in the matrix: a missing rating is stored
    as the rating 0. *)
Theorem train_fills_missing_with_zero (self self' : t) (rs : list Rating)
        (u b : string) :
  train self rs = (self', Ok tt) ->
  In u (map user_id rs) -> In b (map book_id rs) ->
  (forall row, In row rs -> ~ (user_id row = u /\ book_id row = b)) ->
  exists m, user_item_matrix self' = Some m /\ rating_at m u b = Ok 0.
Proof.
  intros Ht Hu Hb Hnone. destruct (train_matrix _ _ _ Ht) as [p [Hp Hm]].
  exists (fillna 0 p). split; [assumption|].
  destruct (rating_at_total rs p u b Hp Hu Hb) as [r Hr].
  rewrite Hr. f_equal. rewrite (pivot_cell _ _ _ _ _ Hp Hr).
  apply find_none_iff in Hnone. now rewrite Hnone.
Qed.

(** Training never changes the rank or the seed of the factorization,
    whatever its outcome. *)
Lemma train_keeps_hyperparameters (self : t) (rs : list Rating) :
  n_components (fst (train self rs)) = n_components self /\
  svd_n_components (svd (fst (train self rs))) = svd_n_components (svd self) /\
  random_state (svd (fst (train self rs))) = random_state (svd self).
Proof.
  unfold train. destruct (pivot rs) as [p|e]; [|repeat split].
  cbn [svd n_components user_item_matrix user_similarity item_similarity].
  unfold fit_transform.
  destruct (svd_fit _ _ _) as [[U C]|e]; simpl; [|repeat split].
  destruct (cosine_similarity U) as [us|e]; [|repeat split].
  destruct (cosine_similarity (transpose C)) as [its|e]; repeat split.
Qed.

(** X3. A training that raises is not undone. Either the ratings table was
    refused and the model is as before, or a later step raised and the
    matrix of the new table is already installed; in both cases the item
    similarity is still the previous one. *)
Theorem failed_train_state (self self' : t) (rs : list Rating) (e : exn) :
  train self rs = (self', Raise e) ->
  item_similarity self' = item_similarity self /\
  ((pivot rs = Raise e /\ self' = self) \/
   (exists p, pivot rs = Ok p /\ user_item_matrix self' = Some (fillna 0 p))).
Proof.
  unfold train. destruct (pivot rs) as [p|e0].
  - cbn [svd n_components user_item_matrix user_similarity item_similarity].
    destruct (fit_transform _ _) as [[fitted uf]|e1].
    + destruct (cosine_similarity uf) as [us|e2].
      * destruct (cosine_similarity _) as [its|e3]; intro H; [discriminate|].
        injection H as <- <-. simpl. split; [reflexivity|]. right. eauto.
      * intro H. injection H as <- <-. simpl. split; [reflexivity|]. right. eauto.
    + intro H. injection H as <- <-. simpl. split; [reflexivity|]. right. eauto.
  - intro H. injection H as <- <-. split; [reflexivity|]. now left.
Qed.

End TrainingMatrix.

Lemma train_stores_ratings_witness :
  exists m,
    CollaborativeFilter.user_item_matrix Sample.collab = Some m /\
    rating_at m "u2" "i3" = Ok 5.
Proof.
  exact (train_stores_ratings (E := Sample.externals) (CollaborativeFilter.init 1)
           Sample.collab Sample.ratings (mkRating "u2" "i3" 5) eq_refl
           (or_intror (or_intror (or_intror (or_introl eq_refl))))).
Defined.

Lemma train_fills_missing_with_zero_witness :
  exists m,
    CollaborativeFilter.user_item_matrix Sample.collab = Some m /\
    rating_at m "u1" "i3" = Ok 0.
Proof.
  apply (train_fills_missing_with_zero (E := Sample.externals)
           (CollaborativeFilter.init 1) Sample.collab Sample.ratings
           "u1" "i3" eq_refl).
  - simpl. tauto.
  - simpl. tauto.
  - intros row Hrow [Hu Hb]. simpl in Hrow.
    destruct Hrow as [<-|[<-|[<-|[<-|[]]]]]; simpl in Hu, Hb; discriminate.
Defined.

Lemma failed_train_state_witness :
  let self' :=
    fst (CollaborativeFilter.train (E := Sample.strict_externals)
           Sample.collab Sample.tied_ratings) in
  CollaborativeFilter.item_similarity self'
  = CollaborativeFilter.item_similarity Sample.collab /\
  ((pivot Sample.tied_ratings = Raise (ValueError "n_components must be <= n_features")
    /\ self' = Sample.collab) \/
   (exists p, pivot Sample.tied_ratings = Ok p /\
              CollaborativeFilter.user_item_matrix self' = Some (fillna 0 p))).
Proof.
  intro self'.
  apply (failed_train_state (E := Sample.strict_externals) Sample.collab self'
           Sample.tied_ratings (ValueError "n_components must be <= n_features")).
  reflexivity.
Defined.

(** * Neighbours *)

Lemma firstn_min_length {A : Type} (k : nat) (l : list A) :
  firstn (Nat.min (List.length l) k) l = firstn k l.
Proof.
  destruct (Nat.le_ge_cases k (List.length l)) as [H|H].
  - now rewrite Nat.min_r.
  - rewrite Nat.min_l by assumption. rewrite firstn_all.
    symmetry. now apply firstn_all2.
Qed.

(** [l[1:k+1]] is the [k] elements after the first. *)
Lemma slice_after_first {A : Type} (k : Z) (l : list A) :
  (0 <= k)%Z -> slice 1 (k + 1) l = firstn (Z.to_nat k) (tl l).
Proof.
  intro Hk. unfold slice, clamp.
  change (1 <? 0)%Z with false. cbv iota.
  destruct (k + 1 <? 0)%Z eqn:Hneg; [apply Z.ltb_lt in Hneg; lia|].
  destruct l as [|x l]; simpl List.length.
  - cbn [tl]. now rewrite skipn_nil, !firstn_nil.
  - replace (Z.to_nat (Z.max 0 (Z.min (Z.of_nat (S (List.length l))) 1))) with 1%nat
      by lia.
    replace (Z.to_nat (Z.max 0 (Z.min (Z.of_nat (S (List.length l))) (k + 1))) - 1)%nat
      with (Nat.min (List.length l) (Z.to_nat k)) by lia.
    simpl. apply firstn_min_length.
Qed.

Lemma collect_pairs (sims : list Q) (ixs : list nat) (similar : list (nat * Q)) :
  collect (fun idx => s <- item_at sims idx ;; Ok (Some (idx, s))) ixs = Ok similar ->
  map fst similar = ixs /\
  Forall (fun nb => nth_error sims (fst nb) = Some (snd nb)) similar.
Proof.
  revert similar. induction ixs as [|i ixs IH]; simpl; intros similar H.
  - injection H as <-. split; [reflexivity|constructor].
  - unfold item_at at 1 in H.
    destruct (nth_error sims i) as [s|] eqn:Hs; simpl in H; [|discriminate].
    destruct (collect _ ixs) as [rest|e] eqn:Hc; simpl in H; [|discriminate].
    injection H as <-. destruct (IH rest eq_refl) as [Hfst Hall].
    simpl. split; [now rewrite Hfst|]. now constructor.
Qed.

Lemma StronglySorted_app_intro {A : Type} (R : A -> A -> Prop) (l1 l2 : list A) :
  StronglySorted R l1 -> StronglySorted R l2 ->
  (forall a b, In a l1 -> In b l2 -> R a b) ->
  StronglySorted R (l1 ++ l2).
Proof.
  intros H1 H2. induction H1 as [|x l1 Hs IH Hx]; simpl; intro H; [assumption|].
  constructor.
  - apply IH. intros a b Ha Hb. apply H; [now right|assumption].
  - apply Forall_app. split; [assumption|].
    apply Forall_forall. intros b Hb. apply H; [now left|assumption].
Qed.

Lemma StronglySorted_app_across {A : Type} (R : A -> A -> Prop) (l1 l2 : list A)
      (a b : A) :
  StronglySorted R (l1 ++ l2) -> In a l1 -> In b l2 -> R a b.
Proof.
  induction l1 as [|x l1 IH]; simpl; intros H Ha Hb; [destruct Ha|].
  inversion H as [|? ? Hs Hx]; subst. destruct Ha as [->|Ha].
  - rewrite Forall_forall in Hx. apply Hx, in_or_app. now right.
  - now apply IH.
Qed.

Lemma StronglySorted_rev {A : Type} (R : A -> A -> Prop) (l : list A) :
  StronglySorted R l -> StronglySorted (fun x y => R y x) (rev l).
Proof.
  induction 1 as [|x l Hs IH Hx]; simpl; [constructor|].
  apply StronglySorted_app_intro; [assumption|repeat constructor|].
  intros a b Ha [<-|[]]. rewrite Forall_forall in Hx.
  apply Hx. now apply in_rev.
Qed.

Section Neighbours.
Import CollaborativeFilter.
Context {E : Externals}.

(** X4. With an [argsort] that returns the positions of the similarity row
    in ascending order of their values, a request for [top_k >= 0]
    neighbours returns. The neighbours are pairwise distinct positions of
    the row, each paired with the similarity stored for it, in descending
    order of similarity, [top_k] of them unless the row has fewer than
    [top_k + 1] entries. The position ranked first is left out, whether or
    not it is the user's own, and none of the neighbours is more similar
    than it; every other position left out is at most as similar as each
    neighbour. *)
Theorem similar_users_by_rank (self : t) (us : matrix) (sims : list Q)
        (idx : nat) (top_k : Z) :
  user_similarity self = Some us ->
  nth_error us idx = Some sims ->
  (0 <= top_k)%Z ->
  Permutation (argsort sims) (seq 0 (List.length sims)) ->
  StronglySorted (fun i j => nth i sims 0 <= nth j sims 0) (argsort sims) ->
  exists similar,
    get_similar_users self idx top_k = Ok similar /\
    map fst similar = firstn (Z.to_nat top_k) (tl (rev (argsort sims))) /\
    Forall (fun nb => nth_error sims (fst nb) = Some (snd nb)) similar /\
    StronglySorted (fun a b => snd b <= snd a) similar /\
    NoDup (map fst similar) /\
    List.length similar = Nat.min (Z.to_nat top_k) (List.length sims - 1) /\
    (forall top x,
        hd_error (rev (argsort sims)) = Some top ->
        nth_error sims top = Some x ->
        ~ In top (map fst similar) /\
        Forall (fun nb => snd nb <= x) similar) /\
    (forall top j x,
        hd_error (rev (argsort sims)) = Some top ->
        nth_error sims j = Some x ->
        j <> top -> ~ In j (map fst similar) ->
        Forall (fun nb => x <= snd nb) similar).
Proof.
  intros Hus Hsims Hk Hperm Hasc.
  unfold get_similar_users, row_at. rewrite Hus, Hsims. cbn [Py.bind].
  rewrite (slice_after_first top_k _ Hk).
  apply StronglySorted_rev in Hasc.
  assert (HpermR : Permutation (rev (argsort sims)) (seq 0 (List.length sims))).
  { rewrite <- Hperm. symmetry. apply Permutation_rev. }
  remember (rev (argsort sims)) as R eqn:HR. clear HR Hperm.
  assert (HndR : NoDup R).
  { apply (Permutation_NoDup (Permutation_sym HpermR)), seq_NoDup. }
  assert (HinR : forall j, In j R <-> (j < List.length sims)%nat).
  { intro j. split; intro Hj.
    - apply (Permutation_in _ HpermR) in Hj. apply in_seq in Hj. lia.
    - apply (Permutation_in _ (Permutation_sym HpermR)), in_seq. lia. }
  assert (HlenR : List.length R = List.length sims).
  { rewrite (Permutation_length HpermR). apply length_seq. }
  remember (Z.to_nat top_k) as k eqn:Hkk. clear Hkk.
  assert (Hsplit : tl R = firstn k (tl R) ++ skipn k (tl R))
    by (symmetry; apply firstn_skipn).
  assert (HT : StronglySorted (fun i j => nth j sims 0 <= nth i sims 0) (tl R)
               /\ NoDup (tl R) /\ (forall j, In j (tl R) -> In j R)).
  { destruct R as [|top T]; simpl; [repeat split; [constructor|constructor|auto]|].
    inversion Hasc; subst. inversion HndR; subst. repeat split; auto. }
  destruct HT as [HdescT [HndT HsubT]].
  set (K := firstn k (tl R)) in *.
  assert (HK : forall j, In j K -> In j (tl R)).
  { intros j Hj. rewrite Hsplit. apply in_or_app. now left. }
  destruct (collect_total
              (fun idx => s <- item_at sims idx ;; Ok (Some (idx, s))) K)
    as [similar Hc].
  { intros j Hj. apply HK, HsubT, HinR in Hj. unfold item_at.
    destruct (nth_error sims j) as [x|] eqn:Hx; [simpl; eauto|].
    apply nth_error_None in Hx. lia. }
  exists similar. split; [exact Hc|].
  destruct (collect_pairs _ _ _ Hc) as [Hfst Hall].
  assert (Hval : forall nb, In nb similar ->
                            In (fst nb) K /\ nth (fst nb) sims 0 = snd nb).
  { intros nb Hnb. split.
    - rewrite <- Hfst. now apply in_map.
    - rewrite Forall_forall in Hall. apply nth_error_nth. now apply Hall. }
  split; [exact Hfst|]. split; [exact Hall|].
  split; [|split; [|split; [|split]]].
  - rewrite Hsplit in HdescT. apply StronglySorted_app_l in HdescT.
    fold K in HdescT. rewrite <- Hfst in HdescT. apply StronglySorted_map in HdescT.
    revert HdescT. apply StronglySorted_weaken. intros a b Ha Hb.
    destruct (Hval a Ha) as [_ ->]. destruct (Hval b Hb) as [_ ->]. auto.
  - rewrite Hfst. rewrite Hsplit in HndT. now apply NoDup_app_remove_r in HndT.
  - rewrite <- (length_map fst similar), Hfst. unfold K.
    rewrite length_firstn. rewrite <- HlenR.
    destruct R; simpl; lia.
  - intros top x Htop Hx. destruct R as [|top' T]; [discriminate|].
    injection Htop as ->. simpl in *. inversion HndR; subst.
    inversion Hasc as [|? ? _ Hbelow]; subst. split.
    + rewrite Hfst. intro Hin. apply HK in Hin. contradiction.
    + apply Forall_forall. intros nb Hnb. destruct (Hval nb Hnb) as [Hin <-].
      rewrite <- (nth_error_nth _ _ 0 Hx).
      rewrite Forall_forall in Hbelow. apply Hbelow. now apply HK.
  - intros top j x Htop Hx Hne Hout. destruct R as [|top' T]; [discriminate|].
    injection Htop as ->. simpl in *.
    assert (Hj : In j (top :: T)).
    { apply HinR. apply nth_error_Some. congruence. }
    destruct Hj as [Hj|Hj]; [congruence|].
    rewrite Hsplit in Hj. apply in_app_or in Hj. rewrite Hfst in Hout.
    destruct Hj as [Hj|Hj]; [contradiction|].
    apply Forall_forall. intros nb Hnb. destruct (Hval nb Hnb) as [Hin <-].
    rewrite <- (nth_error_nth _ _ 0 Hx). rewrite Hsplit in HdescT.
    exact (StronglySorted_app_across _ _ _ _ _ HdescT Hin Hj).
Qed.

End Neighbours.

Lemma similar_users_by_rank_witness :
  exists similar,
    CollaborativeFilter.get_similar_users (E := Sample.externals) Sample.collab
      0 1 = Ok similar /\
    map fst similar = [1%nat] /\
    map fst similar
    = firstn (Z.to_nat 1)
        (tl (rev (argsort (Externals := Sample.externals) [25; 20]))) /\
    Forall (fun nb => nth_error [25; 20] (fst nb) = Some (snd nb)) similar /\
    StronglySorted (fun a b => snd b <= snd a) similar /\
    NoDup (map fst similar) /\
    List.length similar = Nat.min (Z.to_nat 1) (List.length [25; 20] - 1).
Proof.
  destruct (similar_users_by_rank (E := Sample.externals) Sample.collab
              [[25; 20]; [20; 16]] [25; 20] 0 1)
    as [similar [Hget [Hfst [Hall [Hsorted [Hnd [Hlen _]]]]]]].
  - reflexivity.
  - reflexivity.
  - lia.
  - apply perm_swap.
  - repeat constructor. discriminate.
  - exists similar. split; [exact Hget|].
    split; [rewrite Hfst; reflexivity|]. repeat split; assumption.
Defined.

(** * The ranking behind a collaborative answer *)

Lemma firstn_prefix {A : Type} (a b : nat) (l : list A) :
  (a <= b)%nat -> exists rest, firstn b l = firstn a l ++ rest.
Proof.
  revert b l. induction a as [|a IH]; intros b l Hab.
  - exists (firstn b l). reflexivity.
  - destruct b as [|b]; [lia|]. destruct l as [|x l].
    + exists []. reflexivity.
    + destruct (IH b l ltac:(lia)) as [rest Hrest]. exists rest.
      simpl. now rewrite Hrest.
Qed.

Lemma slice_to_all {A : Type} (n : Z) (l : list A) :
  (Z.of_nat (List.length l) <= n)%Z -> slice_to n l = l.
Proof.
  intro H. unfold slice_to. rewrite clamp_nonneg by lia.
  apply firstn_all2. lia.
Qed.

Lemma slice_to_negative {A : Type} (n : Z) (l : list A) :
  (n < 0)%Z -> slice_to n l = firstn (List.length l - Z.to_nat (- n)) l.
Proof.
  intro H. unfold slice_to, clamp.
  destruct (n <? 0)%Z eqn:Hn; [|apply Z.ltb_ge in Hn; lia].
  f_equal. lia.
Qed.

Lemma collect_length {A B : Type} (f : A -> result (option B)) (xs : list A)
      (ys : list B) :
  collect f xs = Ok ys -> (List.length ys <= List.length xs)%nat.
Proof.
  revert ys. induction xs as [|x xs IH]; simpl; intros ys H.
  - injection H as <-. simpl. lia.
  - destruct (f x) as [o|e]; simpl in H; [|discriminate].
    destruct (collect f xs) as [rest|e]; simpl in H; [|discriminate].
    injection H as <-. specialize (IH rest eq_refl). destruct o; simpl; lia.
Qed.

Lemma StronglySorted_label_NoDup (l : list string) :
  StronglySorted label_lt l -> NoDup l.
Proof.
  induction 1 as [|x l Hs IH Hx]; constructor; [|assumption].
  intro Hin. rewrite Forall_forall in Hx.
  exact (label_lt_irrefl x (Hx x Hin)).
Qed.

Section Ranking.
Import CollaborativeFilter.
Context {E : Externals}.

(** The number of recommendations asked for only selects a slice of one
    ranking, which holds a candidate for each column at most. *)
Lemma recommendation_ranking (self : t) (user : string) (n : Z)
      (recs : list CollabRec) :
  get_user_recommendations self user n = Ok recs ->
  exists m ranking,
    user_item_matrix self = Some m /\
    (List.length ranking <= List.length (columns m))%nat /\
    forall n', get_user_recommendations self user n' = Ok (slice_to n' ranking).
Proof.
  intro H.
  destruct (get_user_recommendations_inv _ _ _ _ H)
    as [m [idx [row [similar [full [Hm [Hi [Hrow [Hs [Hc _]]]]]]]]]].
  exists m, (sort_desc predicted_rating full). split; [assumption|]. split.
  - rewrite (Permutation_length (sort_desc_perm predicted_rating full)).
    exact (collect_length _ _ _ Hc).
  - intro n'. unfold get_user_recommendations.
    rewrite Hm, Hi. simpl. rewrite Hrow. simpl. rewrite Hs. simpl.
    rewrite Hc. reflexivity.
Qed.

(** X7. Asking for more recommendations only appends to the answer: for
    [0 <= n <= n'] the answer for [n] is a prefix of the answer for [n'],
    and the request for [n'] succeeds when the one for [n] does. *)
Theorem recommend_prefix_in_n (self : t) (user : string) (n n' : Z)
        (recs : list CollabRec) :
  get_user_recommendations self user n = Ok recs ->
  (0 <= n <= n')%Z ->
  exists rest, get_user_recommendations self user n' = Ok (recs ++ rest).
Proof.
  intros H Hn.
  destruct (recommendation_ranking _ _ _ _ H) as [m [ranking [_ [_ Hall]]]].
  rewrite (Hall n) in H. injection H as <-. rewrite (Hall n').
  unfold slice_to.
  destruct (firstn_prefix (clamp (Z.of_nat (List.length ranking)) n)
                          (clamp (Z.of_nat (List.length ranking)) n') ranking)
    as [rest Hrest].
  { rewrite !clamp_nonneg by lia. lia. }
  exists rest. now rewrite Hrest.
Qed.

(** X8. A negative number of recommendations is not refused: the answer is
    the complete ranking (the answer for any [n'] of at least the number of
    columns) without its last [|n|] entries. *)
Theorem recommend_negative_n (self : t) (user : string) (n : Z)
        (recs : list CollabRec) :
  get_user_recommendations self user n = Ok recs ->
  (n < 0)%Z ->
  exists m ranking,
    user_item_matrix self = Some m /\
    (forall n', (Z.of_nat (List.length (columns m)) <= n')%Z ->
                get_user_recommendations self user n' = Ok ranking) /\
    recs = firstn (List.length ranking - Z.to_nat (- n)) ranking.
Proof.
  intros H Hn.
  destruct (recommendation_ranking _ _ _ _ H) as [m [ranking [Hm [Hlen Hall]]]].
  exists m, ranking. split; [assumption|]. split.
  - intros n' Hn'. rewrite (Hall n'). f_equal. apply slice_to_all. lia.
  - rewrite (Hall n) in H. injection H as <-. now apply slice_to_negative.
Qed.

(** X9. The recommended items are pairwise distinct. *)
Theorem recommend_distinct_items (self self' : t) (rs : list Rating)
        (user : string) (n : Z) (recs : list CollabRec) :
  train self rs = (self', Ok tt) ->
  get_user_recommendations self' user n = Ok recs ->
  NoDup (map collab_book_id recs).
Proof.
  intros Ht H.
  destruct (get_user_recommendations_inv _ _ _ _ H)
    as [m [idx [row [similar [full [Hm [Hi [Hrow [Hs [Hc ->]]]]]]]]]].
  destruct (train_matrix _ _ _ Ht) as [p [Hp Hm']].
  rewrite Hm in Hm'. injection Hm' as ->.
  assert (Hfull : NoDup (map collab_book_id full)).
  { apply StronglySorted_label_NoDup, StronglySorted_map_intro.
    apply (collect_sorted _ collab_book_id label_lt _ _
             (fun b rec Hb => proj1 (candidate_inv _ _ _ _ _ _ Hb)) Hc).
    rewrite (proj1 (pivot_columns rs p Hp)). apply sorted_unique_sorted. }
  destruct (slice_to_prefix n (sort_desc predicted_rating full)) as [rest Hrest].
  apply (Permutation_NoDup
           (Permutation_map collab_book_id
              (Permutation_sym (sort_desc_perm predicted_rating full)))) in Hfull.
  rewrite Hrest, map_app in Hfull. now apply NoDup_app_remove_r in Hfull.
Qed.

(** X10. A rating of 0 counts as no rating: a book the user rated 0 is
    among the user's candidates, and is returned when at least as many
    recommendations are asked for as the matrix has columns. *)
Theorem zero_rating_is_recommended (self self' : t) (rs : list Rating)
        (row : Rating) (n : Z) (recs : list CollabRec) :
  train self rs = (self', Ok tt) ->
  In row rs -> rating row == 0 ->
  get_user_recommendations self' (user_id row) n = Ok recs ->
  (Z.of_nat (List.length (sorted_unique (map book_id rs))) <= n)%Z ->
  In (book_id row) (map collab_book_id recs).
Proof.
  intros Ht Hrow Hzero H Hn.
  destruct (get_user_recommendations_inv _ _ _ _ H)
    as [m [idx [srow [similar [full [Hm [Hi [Hsrow [Hs [Hc ->]]]]]]]]]].
  destruct (train_matrix _ _ _ Ht) as [p [Hp Hm']].
  rewrite Hm in Hm'. injection Hm' as ->.
  destruct (pivot_columns rs p Hp) as [Hcols _].
  assert (Hb : In (book_id row) (columns (fillna 0 p))).
  { rewrite Hcols. apply sorted_unique_In. now apply in_map. }
  assert (Hcell : series_get srow (book_id row) = Ok (rating row)).
  { pose proof (rating_at_total rs p (user_id row) (book_id row) Hp
                  (in_map _ _ _ Hrow) (in_map _ _ _ Hrow)) as [r Hr].
    pose proof Hr as Hr'. unfold rating_at in Hr'. rewrite Hi in Hr'. simpl in Hr'.
    rewrite Hsrow in Hr'. simpl in Hr'. rewrite Hr'. f_equal.
    rewrite (pivot_cell _ _ _ _ _ Hp Hr).
    now rewrite (find_unique_row rs row (pivot_no_duplicates rs p Hp) Hrow). }
  destruct (collect_each _ _ _ _ Hc Hb) as [o Ho].
  destruct (candidate_unrated _ _ _ _ _ _ _ Ho Hcell Hzero) as [rec ->].
  rewrite slice_to_all.
  - apply in_map_iff. exists rec. split.
    + exact (proj1 (candidate_inv _ _ _ _ _ _ Ho)).
    + apply sort_desc_In. eapply collect_complete; eassumption.
  - rewrite (Permutation_length (sort_desc_perm predicted_rating full)).
    pose proof (collect_length _ _ _ Hc) as Hlen. rewrite Hcols in Hlen. lia.
Qed.

(** X11. A user with a nonzero rating for every book of the matrix gets the
    empty list, not an error. *)
Theorem nothing_left_to_recommend (self : t) (m : DataFrame) (user : string)
        (n : Z) (recs : list CollabRec) :
  user_item_matrix self = Some m ->
  get_user_recommendations self user n = Ok recs ->
  (forall b r, In b (columns m) -> rating_at m user b = Ok r -> ~ r == 0) ->
  recs = [].
Proof.
  intros Hm H Hall. destruct recs as [|rec recs]; [reflexivity|]. exfalso.
  destruct (get_user_recommendations_inv _ _ _ _ H)
    as [m' [idx [row [similar [full [Hm' [Hi [Hrow [Hs [Hc Hrecs]]]]]]]]]].
  rewrite Hm in Hm'. injection Hm' as <-.
  assert (Hin : In rec (slice_to n (sort_desc predicted_rating full)))
    by (rewrite <- Hrecs; now left).
  apply slice_to_In, sort_desc_In in Hin.
  destruct (collect_In _ _ _ _ Hc Hin) as [b [Hb Hcand]].
  destruct (candidate_inv _ _ _ _ _ _ Hcand) as [_ [[r [Hr Hz]] _]].
  apply (Hall b r Hb); [|assumption].
  unfold rating_at. rewrite Hi. simpl. rewrite Hrow. simpl. assumption.
Qed.

End Ranking.

Lemma recommend_prefix_in_n_witness :
  exists rest,
    CollaborativeFilter.get_user_recommendations (E := Sample.externals)
      Sample.tied_collab "u1" 10
    = Ok ([mkCollabRec "i2" (60 # 20) "collaborative"] ++ rest).
Proof.
  apply (recommend_prefix_in_n (E := Sample.externals) Sample.tied_collab "u1" 1 10).
  - reflexivity.
  - lia.
Defined.

Lemma recommend_negative_n_witness :
  exists m ranking,
    CollaborativeFilter.user_item_matrix Sample.tied_collab = Some m /\
    (forall n', (Z.of_nat (List.length (columns m)) <= n')%Z ->
                CollaborativeFilter.get_user_recommendations
                  (E := Sample.externals) Sample.tied_collab "u1" n'
                = Ok ranking) /\
    [mkCollabRec "i2" (60 # 20) "collaborative"]
    = firstn (List.length ranking - Z.to_nat (- (-1))) ranking.
Proof.
  apply (recommend_negative_n (E := Sample.externals) Sample.tied_collab "u1" (-1)).
  - reflexivity.
  - lia.
Defined.

Lemma recommend_distinct_items_witness :
  NoDup (map collab_book_id
           [mkCollabRec "i2" (60 # 20) "collaborative";
            mkCollabRec "i3" (60 # 20) "collaborative"]).
Proof.
  apply (recommend_distinct_items (E := Sample.externals)
           (CollaborativeFilter.init 1) Sample.tied_collab Sample.tied_ratings
           "u1" 10).
  - reflexivity.
  - reflexivity.
Defined.

Lemma zero_rating_is_recommended_witness :
  exists recs,
    CollaborativeFilter.get_user_recommendations (E := Sample.externals)
      Sample.zero_collab "u1" 2 = Ok recs /\
    In "i2" (map collab_book_id recs).
Proof.
  eexists. split; [vm_compute; reflexivity|].
  apply (zero_rating_is_recommended (E := Sample.externals)
           (CollaborativeFilter.init 1) Sample.zero_collab Sample.zero_ratings
           (mkRating "u1" "i2" 0) 2).
  - reflexivity.
  - right. left. reflexivity.
  - reflexivity.
  - vm_compute. reflexivity.
  - vm_compute. discriminate.
Defined.

Lemma nothing_left_to_recommend_witness :
  exists recs,
    CollaborativeFilter.get_user_recommendations (E := Sample.externals)
      Sample.tied_collab "u2" 10 = Ok recs /\
    recs = [].
Proof.
  eexists. split; [vm_compute; reflexivity|].
  apply (nothing_left_to_recommend (E := Sample.externals) Sample.tied_collab
           (mkFrame ["u1"; "u2"] ["i1"; "i2"; "i3"] [[5; 0; 0]; [4; 3; 3]])
           "u2" 10).
  - reflexivity.
  - vm_compute. reflexivity.
  - intros b r Hb Hr Hz. simpl in Hb.
    destruct Hb as [<-|[<-|[<-|[]]]]; vm_compute in Hr; injection Hr as <-;
      discriminate Hz.
Defined.

(** * Content recommendations *)

Lemma collect_sorted_by {A B C : Type} (f : A -> result (option B))
      (h : B -> C) (k : A -> C) (R : C -> C -> Prop) (xs : list A) (ys : list B) :
  (forall x y, f x = Ok (Some y) -> h y = k x) ->
  collect f xs = Ok ys ->
  StronglySorted (fun a b => R (k a) (k b)) xs ->
  StronglySorted (fun a b => R (h a) (h b)) ys.
Proof.
  intro Hh. revert ys. induction xs as [|x xs IH]; simpl; intros ys H Hs.
  - injection H as <-. constructor.
  - destruct (f x) as [o|e] eqn:Hf; simpl in H; [|discriminate].
    destruct (collect f xs) as [rest|e] eqn:Hc; simpl in H; [|discriminate].
    injection H as <-. inversion Hs as [|? ? Hs' Hx]; subst.
    specialize (IH rest eq_refl Hs'). destruct o as [y|]; [|assumption].
    constructor; [assumption|]. apply Forall_forall. intros z Hz.
    destruct (collect_In f xs rest z Hc Hz) as [x' [Hin Hx']].
    rewrite (Hh _ _ Hf), (Hh _ _ Hx'). rewrite Forall_forall in Hx. now apply Hx.
Qed.

Lemma keep_first_NoDup_id (l : list string) : NoDup l -> keep_first l = l.
Proof.
  induction 1 as [|x l Hx Hnd IH]; simpl; [reflexivity|].
  rewrite IH. f_equal. rewrite <- (filter_all l) at 2.
  apply filter_ext_in. intros y Hy. apply negb_true_iff, String.eqb_neq.
  intros ->. contradiction.
Qed.

Lemma first_seen_order (l : list string) :
  NoDup l -> StronglySorted (first_seen_before l) l.
Proof.
  intro H. rewrite <- (keep_first_NoDup_id l H) at 2. apply keep_first_order.
Qed.

Lemma StronglySorted_first_seen_NoDup (ids l : list string) :
  StronglySorted (first_seen_before ids) l -> NoDup l.
Proof.
  induction 1 as [|x l Hs IH Hx]; constructor; [|assumption].
  intro Hin. rewrite Forall_forall in Hx. specialize (Hx x Hin).
  unfold first_seen_before in Hx. lia.
Qed.

Lemma desc_then_sorted_weaken {A : Type} (key : A -> Q) (T : A -> A -> Prop)
      (l : list A) :
  StronglySorted (desc_then key T) l ->
  StronglySorted (fun x y => key y <= key x) l.
Proof.
  apply StronglySorted_weaken. intros a b _ _ [H|[H _]].
  - now apply Qlt_le_weak.
  - rewrite H. apply Qle_refl.
Qed.

Section ContentRanking.
Import Catalog ContentBasedFilter.

Lemma get_content_recommendations_inv (self : t) (profile : UserProfile) (n : Z)
      (recs : list ContentRec) :
  get_content_recommendations self profile n = Ok recs ->
  exists bf full,
    book_features self = Some bf /\
    collect (candidate self profile) bf = Ok full /\
    recs = slice_to n (sort_desc content_score full).
Proof.
  unfold get_content_recommendations.
  destruct (book_features self) as [bf|]; [|discriminate].
  destruct (collect _ bf) as [full|e] eqn:Hfull; simpl; [|discriminate].
  intro H. injection H as <-. exists bf, full. auto.
Qed.

(** X12. The content recommendations over a catalog of distinct ids are in
    descending order of content score, entries of equal score in catalog
    order; their ids are pairwise distinct, and for [n >= 0] there are at
    most [n] of them. *)
Theorem content_output_ranked (self : t) (bf : list Book) (profile : UserProfile)
        (n : Z) (recs : list ContentRec) :
  book_features self = Some bf ->
  NoDup (map book_id bf) ->
  get_content_recommendations self profile n = Ok recs ->
  StronglySorted
    (desc_then content_score
       (fun x y => first_seen_before (map book_id bf)
                     (content_book_id x) (content_book_id y))) recs /\
  NoDup (map content_book_id recs) /\
  ((0 <= n)%Z -> (List.length recs <= Z.to_nat n)%nat).
Proof.
  intros Hbf Hnd H.
  destruct (get_content_recommendations_inv _ _ _ _ H) as [bf' [full [Hbf' [Hc ->]]]].
  rewrite Hbf in Hbf'. injection Hbf' as <-.
  assert (Hfull : StronglySorted
                    (fun x y => first_seen_before (map book_id bf)
                                  (content_book_id x) (content_book_id y)) full).
  { apply (collect_sorted_by (candidate self profile) content_book_id book_id
             (first_seen_before (map book_id bf)) bf full).
    - intros book rec Hcand.
      now destruct (content_candidate_inv _ _ _ _ Hcand) as [-> _].
    - exact Hc.
    - apply StronglySorted_map. now apply first_seen_order. }
  split; [apply slice_to_sorted; now apply sort_desc_stable|].
  split; [|intro Hn; now apply slice_to_length].
  apply StronglySorted_map_intro, StronglySorted_first_seen_NoDup in Hfull.
  destruct (slice_to_prefix n (sort_desc content_score full)) as [rest Hrest].
  apply (Permutation_NoDup
           (Permutation_map content_book_id
              (Permutation_sym (sort_desc_perm content_score full)))) in Hfull.
  rewrite Hrest, map_app in Hfull. now apply NoDup_app_remove_r in Hfull.
Qed.

(** X13. With at least as many recommendations asked for as the catalog has
    rows, every catalog item outside the reading history is returned, with
    the score [calculate_content_score] gives it. *)
Theorem content_output_complete (self : t) (bf : list Book)
        (profile : UserProfile) (n : Z) (recs : list ContentRec) (book : Book) :
  book_features self = Some bf ->
  get_content_recommendations self profile n = Ok recs ->
  (Z.of_nat (List.length bf) <= n)%Z ->
  In book bf ->
  ~ In (book_id book) (reading_history profile) ->
  exists rec,
    In rec recs /\ content_book_id rec = book_id book /\
    calculate_content_score self book profile = Ok (content_score rec).
Proof.
  intros Hbf H Hn Hbook Hunread.
  destruct (get_content_recommendations_inv _ _ _ _ H) as [bf' [full [Hbf' [Hc ->]]]].
  rewrite Hbf in Hbf'. injection Hbf' as <-.
  destruct (collect_each _ _ _ _ Hc Hbook) as [o Ho].
  assert (Hmem : mem (book_id book) (reading_history profile) = false).
  { destruct (mem _ _) eqn:Hm; [|reflexivity]. apply mem_In in Hm. contradiction. }
  pose proof Ho as Ho'. unfold candidate in Ho'. rewrite Hmem in Ho'. simpl in Ho'.
  destruct (calculate_content_score self book profile) as [s|e] eqn:Hs;
    simpl in Ho'; [|discriminate].
  injection Ho' as <-.
  exists (mkContentRec (book_id book) s "content_based").
  split; [|split; reflexivity].
  rewrite slice_to_all.
  - apply sort_desc_In. eapply collect_complete; eassumption.
  - rewrite (Permutation_length (sort_desc_perm content_score full)).
    pose proof (collect_length _ _ _ Hc). lia.
Qed.

Lemma select_incl {A : Type} (bits : list bool) (l : list A) :
  incl (select bits l) l.
Proof.
  revert l. induction bits as [|b bits IH]; intros [|x l]; simpl;
    try apply incl_nil_l.
  destruct b; [apply incl_cons; [now left|]|]; apply incl_tl, IH.
Qed.

Lemma slice_incl {A : Type} (start len : nat) (l : list A) :
  incl (firstn len (skipn start l)) l.
Proof.
  intros x Hx. rewrite <- (firstn_skipn start l). apply in_or_app. right.
  rewrite <- (firstn_skipn len (skipn start l)). apply in_or_app. now left.
Qed.

Lemma concat_incl {A : Type} (m m' : list (list A)) :
  incl m m' -> incl (List.concat m) (List.concat m').
Proof.
  intros H x Hx. apply in_concat in Hx. destruct Hx as [row [Hrow Hx]].
  apply in_concat. exists row. split; [now apply H|assumption].
Qed.

(** Indexing selects entries of the array: it makes no new number. *)
Lemma getitem_elements (a b : ndarray) (k : loc) :
  getitem a k = Ok b -> incl (elements b) (elements a).
Proof.
  destruct a as [x|v|m]; simpl; [discriminate| |]; unfold pick;
    destruct k as [i|start stop|bits].
  - destruct (nth_error v i) as [x|] eqn:Hx; [|discriminate].
    intro H. injection H as <-. simpl. intros y [<-|[]].
    eapply nth_error_In; eassumption.
  - intro H. injection H as <-. simpl. apply slice_incl.
  - destruct (Nat.eqb _ _); [|discriminate].
    intro H. injection H as <-. simpl. apply select_incl.
  - destruct (nth_error m i) as [row|] eqn:Hrow; [|discriminate].
    intro H. injection H as <-. simpl. intros y Hy. apply in_concat.
    exists row. split; [eapply nth_error_In; eassumption|assumption].
  - intro H. injection H as <-. simpl. apply concat_incl, slice_incl.
  - destruct (Nat.eqb _ _); [|discriminate].
    intro H. injection H as <-. simpl. apply concat_incl, select_incl.
Qed.

Lemma only_element_In (a : ndarray) (x : Q) :
  only_element a = Ok x -> In x (elements a).
Proof.
  unfold only_element. destruct (elements a) as [|y [|z l]]; try discriminate.
  intro H. injection H as <-. now left.
Qed.

Lemma similarity_loop_bounds (self : t) (ids : list string) (i : loc)
      (history : list string) (acc mx : Q) :
  for_each (similarity_step self ids i) history acc = Ok mx ->
  acc <= mx /\
  ((forall cs, content_similarity self = Some cs ->
               Forall (Forall (fun x => x <= 1)) cs) ->
   acc <= 1 -> mx <= 1).
Proof.
  revert acc. induction history as [|h history IH]; simpl; intros acc H.
  - injection H as <-. split; [apply Qle_refl|auto].
  - unfold similarity_step at 1 in H. destruct (mem h ids).
    + destruct (index_get_loc ids h) as [j|e]; cbn [Py.bind] in H; [|discriminate].
      destruct (content_similarity self) as [cs|] eqn:Hcs; [|discriminate].
      destruct (getitem (Matrix2 cs) i) as [rows|e] eqn:Hrows; cbn [Py.bind] in H;
        [|discriminate].
      destruct (getitem rows j) as [sim|e] eqn:Hsim; cbn [Py.bind] in H;
        [|discriminate].
      unfold max_with in H.
      destruct (only_element sim) as [x|e] eqn:Hx; cbn [Py.bind] in H;
        [|discriminate].
      destruct (IH _ H) as [Hle Hone]. split.
      * eapply Qle_trans; [|exact Hle].
        destruct (max_cases acc x) as [[-> _]|[-> Hlt]];
          [apply Qle_refl|now apply Qlt_le_weak].
      * intros Hcs1 Hacc. apply Hone; [assumption|].
        destruct (max_cases acc x) as [[-> _]|[-> _]]; [assumption|].
        specialize (Hcs1 cs eq_refl).
        apply only_element_In in Hx. apply (getitem_elements _ _ _ Hsim) in Hx.
        apply (getitem_elements _ _ _ Hrows) in Hx. simpl in Hx.
        apply in_concat in Hx. destruct Hx as [row [Hrow Hx]].
        rewrite Forall_forall in Hcs1. specialize (Hcs1 row Hrow).
        rewrite Forall_forall in Hcs1. exact (Hcs1 x Hx).
    + cbn [Py.bind] in H. now apply IH.
Qed.

(** X14. A content score is never negative, whatever the similarity matrix
    holds, and it is at most 1 when no entry of the matrix exceeds 1. *)
Theorem content_score_range (self : t) (book : Book) (profile : UserProfile)
        (s : Q) :
  calculate_content_score self book profile = Ok s ->
  0 <= s /\
  ((forall cs, content_similarity self = Some cs ->
               Forall (Forall (fun x => x <= 1)) cs) ->
   s <= 1).
Proof.
  unfold calculate_content_score.
  set (g := cell_in (genre book) (preferred_genres profile)).
  set (a := cell_in (author book) (favorite_authors profile)).
  destruct (reading_history profile) as [|h0 history].
  - intro H. injection H as <-. destruct g, a; split; intros; lra.
  - destruct (book_features self) as [bf|]; [|discriminate].
    destruct (index_get_loc _ _) as [i|e]; cbn [Py.bind]; [|discriminate].
    destruct (for_each (similarity_step self (map book_id bf) i) (h0 :: history) 0)
      as [mx|e] eqn:Hloop; cbn [Py.bind]; [|discriminate].
    intro H. injection H as <-.
    destruct (similarity_loop_bounds _ _ _ _ _ _ Hloop) as [H0 H1].
    split.
    + destruct g, a; lra.
    + intro Hcs. specialize (H1 Hcs ltac:(lra)). destruct g, a; lra.
Qed.

End ContentRanking.

(** ** The reading history in a content score *)

Lemma fold_max_perm (l l' : list Q) (a : Q) :
  Permutation l l' -> fold_left Py.max l a == fold_left Py.max l' a.
Proof.
  intro Hp.
  destruct (running_max l a) as [Ha [Hall Hin]].
  destruct (running_max l' a) as [Ha' [Hall' Hin']].
  cbv zeta in *. rewrite Forall_forall in Hall, Hall'.
  apply Qle_antisym.
  - destruct Hin as [->|Hin]; [assumption|].
    apply Hall'. now apply (Permutation_in _ Hp).
  - destruct Hin' as [->|Hin']; [assumption|].
    apply Hall. now apply (Permutation_in _ (Permutation_sym Hp)).
Qed.

Lemma collect_perm {A B : Type} (f : A -> result (option B)) (xs xs' : list A)
      (ys : list B) :
  Permutation xs xs' -> collect f xs = Ok ys ->
  exists ys', collect f xs' = Ok ys' /\ Permutation ys ys'.
Proof.
  intro Hp. revert ys.
  induction Hp as [|x xs xs' Hp IH|x y xs|xs xs' xs'' Hp1 IH1 Hp2 IH2];
    intros ys H.
  - exists ys. split; [assumption|reflexivity].
  - simpl in H |- *. destruct (f x) as [o|e]; simpl in H |- *; [|discriminate].
    destruct (collect f xs) as [rest|e]; simpl in H; [|discriminate].
    injection H as <-. destruct (IH rest eq_refl) as [rest' [-> Hperm]]. simpl.
    eexists. split; [reflexivity|]. destruct o; [now constructor|assumption].
  - simpl in H |- *.
    destruct (f y) as [oy|e]; simpl in H |- *; [|discriminate].
    destruct (f x) as [ox|e]; simpl in H |- *; [|discriminate].
    destruct (collect f xs) as [rest|e]; simpl in H |- *; [|discriminate].
    injection H as <-. eexists. split; [reflexivity|].
    destruct ox, oy; try reflexivity. apply perm_swap.
  - destruct (IH1 ys H) as [ys' [H' Hperm']].
    destruct (IH2 ys' H') as [ys'' [H'' Hperm'']].
    exists ys''. split; [assumption|]. now transitivity ys'.
Qed.

Section ReadingHistory.
Import Catalog ContentBasedFilter.

Lemma similarity_step_value (self : t) (ids : list string) (i : loc) (acc : Q)
      (h : string) :
  similarity_step self ids i acc h
  = (v <- history_similarity self ids i h ;;
     Ok (match v with Some x => Py.max acc x | None => acc end)).
Proof.
  unfold similarity_step, history_similarity. destruct (mem h ids); [|reflexivity].
  destruct (index_get_loc ids h) as [j|e]; cbn [Py.bind]; [|reflexivity].
  destruct (content_similarity self) as [cs|]; [|reflexivity].
  destruct (getitem (Matrix2 cs) i) as [rows|e]; cbn [Py.bind]; [|reflexivity].
  destruct (getitem rows j) as [sim|e]; cbn [Py.bind]; [|reflexivity].
  unfold max_with. destruct (only_element sim); reflexivity.
Qed.

(** The loop over the reading history folds [max] over the similarities of
    its items, and succeeds exactly when each of them can be looked up. *)
Lemma similarity_loop_values (self : t) (ids : list string) (i : loc)
      (history : list string) (acc : Q) :
  for_each (similarity_step self ids i) history acc
  = (vals <- collect (history_similarity self ids i) history ;;
     Ok (fold_left Py.max vals acc)).
Proof.
  revert acc. induction history as [|h history IH]; intro acc; simpl;
    [reflexivity|].
  rewrite similarity_step_value.
  destruct (history_similarity self ids i h) as [v|e]; simpl; [|reflexivity].
  rewrite IH. destruct (collect _ history) as [vals|e]; simpl; [|reflexivity].
  destruct v; reflexivity.
Qed.

Lemma history_similarity_absent (self : t) (ids : list string) (i : loc)
      (history : list string) :
  collect (history_similarity self ids i) (filter (fun h => mem h ids) history)
  = collect (history_similarity self ids i) history.
Proof.
  induction history as [|h history IH]; simpl; [reflexivity|].
  destruct (mem h ids) eqn:Hmem; simpl.
  - now rewrite IH.
  - unfold history_similarity at 2. rewrite Hmem. simpl. rewrite IH.
    destruct (collect _ history); reflexivity.
Qed.

(** X15. The ids of the reading history that are not in the catalog do not
    change a content score: leaving them out gives an equal score. *)
Theorem unknown_history_ignored (self : t) (bf : list Book) (book : Book)
        (profile : UserProfile) (s : Q) :
  book_features self = Some bf ->
  calculate_content_score self book profile = Ok s ->
  exists s',
    calculate_content_score self book
      (with_history profile
         (filter (fun h => mem h (map book_id bf)) (reading_history profile)))
    = Ok s' /\
    s' == s.
Proof.
  intros Hbf. unfold calculate_content_score, with_history.
  cbn [preferred_genres favorite_authors reading_history].
  set (g := cell_in (genre book) (preferred_genres profile)).
  set (a := cell_in (author book) (favorite_authors profile)).
  destruct (reading_history profile) as [|h0 history] eqn:Hh.
  - intro H. exists s. split; [exact H|reflexivity].
  - rewrite Hbf.
    destruct (index_get_loc (map book_id bf) (book_id book)) as [i|e] eqn:Hloc;
      cbn [Py.bind]; [|discriminate].
    rewrite similarity_loop_values, <- history_similarity_absent.
    destruct (filter (fun h => mem h (map book_id bf)) (h0 :: history))
      as [|f0 present] eqn:Hf.
    + simpl. intro H. injection H as <-. eexists. split; [reflexivity|].
      destruct g, a; lra.
    + cbn [Py.bind]. rewrite similarity_loop_values.
      intro H. exists s. split; [exact H|reflexivity].
Qed.

(** X16. The order of the reading history does not matter to a content
    score: a permuted history gives an equal score, and the scoring
    succeeds for it when it does for the original. *)
Theorem history_order_irrelevant (self : t) (book : Book) (profile : UserProfile)
        (history' : list string) (s : Q) :
  Permutation (reading_history profile) history' ->
  calculate_content_score self book profile = Ok s ->
  exists s',
    calculate_content_score self book (with_history profile history') = Ok s' /\
    s' == s.
Proof.
  intros Hperm. unfold calculate_content_score, with_history.
  cbn [preferred_genres favorite_authors reading_history].
  set (g := cell_in (genre book) (preferred_genres profile)).
  set (a := cell_in (author book) (favorite_authors profile)).
  destruct (reading_history profile) as [|h0 history] eqn:Hh.
  - apply Permutation_nil in Hperm. subst history'. intro H.
    exists s. split; [exact H|reflexivity].
  - destruct history' as [|h0' hist'];
      [apply Permutation_sym, Permutation_nil in Hperm; discriminate|].
    destruct (book_features self) as [bf|]; [|discriminate].
    destruct (index_get_loc (map book_id bf) (book_id book)) as [i|e];
      cbn [Py.bind]; [|discriminate].
    rewrite !similarity_loop_values.
    destruct (collect _ (h0 :: history)) as [vals|e] eqn:Hvals;
      cbn [Py.bind]; [|discriminate].
    destruct (collect_perm _ _ _ _ Hperm Hvals) as [vals' [Hvals' Hp]].
    rewrite Hvals'. cbn [Py.bind]. intro H. injection H as <-.
    eexists. split; [reflexivity|].
    rewrite (fold_max_perm vals vals' 0 Hp). reflexivity.
Qed.

Section ContentTraining.
Context {E : Externals}.

(** X17. A content training that raises keeps the catalog and the
    similarity matrix of the previous training; only the vectorizer is
    new. *)
Theorem failed_content_train_state (self self' : t) (books : list Book)
        (e : exn) :
  train self books = (self', Raise e) ->
  book_features self' = book_features self /\
  content_similarity self' = content_similarity self /\
  tfidf_vectorizer self' = Some (mkTfidf 5000 "english" (1, 2)%Z).
Proof.
  unfold train.
  destruct (tfidf_fit_transform _ _) as [tfidf|e1].
  - destruct (cosine_similarity tfidf) as [sim|e2]; intro H; [discriminate|].
    injection H as <- <-. repeat split.
  - intro H. injection H as <- <-. repeat split.
Qed.

End ContentTraining.

End ReadingHistory.

Lemma content_output_ranked_witness :
  exists recs,
    ContentBasedFilter.get_content_recommendations Sample.content
      Sample.romance_reader 10 = Ok recs /\
    map content_book_id recs = ["i3"; "i1"; "i2"] /\
    StronglySorted
      (desc_then content_score
         (fun x y => first_seen_before (map Catalog.book_id Sample.catalog)
                       (content_book_id x) (content_book_id y))) recs.
Proof.
  eexists. split; [vm_compute; reflexivity|]. split; [reflexivity|].
  apply (content_output_ranked Sample.content Sample.catalog
           Sample.romance_reader 10).
  - reflexivity.
  - repeat constructor; simpl; intuition discriminate.
  - vm_compute. reflexivity.
Defined.

Lemma content_output_complete_witness :
  exists recs,
    ContentBasedFilter.get_content_recommendations Sample.content
      Sample.read_i3 10 = Ok recs /\
    exists rec, In rec recs /\ content_book_id rec = "i2" /\
      ContentBasedFilter.calculate_content_score Sample.content
        (Catalog.mkBook "i2" (Some "Dune") (Some "Herbert") (Some "SciFi") None)
        Sample.read_i3 = Ok (content_score rec).
Proof.
  eexists. split; [vm_compute; reflexivity|].
  apply (content_output_complete Sample.content Sample.catalog Sample.read_i3 10 _
           (Catalog.mkBook "i2" (Some "Dune") (Some "Herbert") (Some "SciFi") None)).
  - reflexivity.
  - vm_compute. reflexivity.
  - vm_compute. discriminate.
  - right. right. left. reflexivity.
  - simpl. intros [H|[]]. discriminate.
Defined.

Lemma content_score_range_witness :
  exists s,
    ContentBasedFilter.calculate_content_score Sample.content
      (Catalog.mkBook "i1" (Some "Emma") (Some "Austen") (Some "Romance") None)
      Sample.read_i3 = Ok s /\
    0 <= s /\ s <= 1.
Proof.
  eexists. split; [vm_compute; reflexivity|].
  destruct (content_score_range Sample.content
              (Catalog.mkBook "i1" (Some "Emma") (Some "Austen") (Some "Romance")
                 None)
              Sample.read_i3 _ eq_refl) as [H0 H1].
  split; [exact H0|]. apply H1. intros cs Hcs. injection Hcs as <-.
  repeat constructor; discriminate.
Defined.

Lemma unknown_history_ignored_witness :
  let book :=
    Catalog.mkBook "i1" (Some "Emma") (Some "Austen") (Some "Romance") None in
  let profile := mkProfile ["Romance"] [] ["zz"; "i3"] in
  exists s,
    ContentBasedFilter.calculate_content_score Sample.content book profile = Ok s /\
    exists s',
      ContentBasedFilter.calculate_content_score Sample.content book
        (with_history profile ["i3"]) = Ok s' /\
      s' == s.
Proof.
  intros book profile. eexists. split; [vm_compute; reflexivity|].
  apply (unknown_history_ignored Sample.content Sample.catalog book profile).
  - reflexivity.
  - vm_compute. reflexivity.
Defined.

Lemma history_order_irrelevant_witness :
  let book :=
    Catalog.mkBook "i1" (Some "Emma") (Some "Austen") (Some "Romance") None in
  let profile := mkProfile ["Romance"] [] ["i3"; "i2"] in
  exists s,
    ContentBasedFilter.calculate_content_score Sample.content book profile = Ok s /\
    exists s',
      ContentBasedFilter.calculate_content_score Sample.content book
        (with_history profile ["i2"; "i3"]) = Ok s' /\
      s' == s.
Proof.
  intros book profile. eexists. split; [vm_compute; reflexivity|].
  apply (history_order_irrelevant Sample.content book profile ["i2"; "i3"]).
  - apply perm_swap.
  - vm_compute. reflexivity.
Defined.

Lemma failed_content_train_state_witness :
  let self' :=
    fst (ContentBasedFilter.train (E := Sample.empty_vocabulary_externals)
           Sample.content []) in
  ContentBasedFilter.book_features self' = Some Sample.catalog /\
  ContentBasedFilter.content_similarity self'
  = ContentBasedFilter.content_similarity Sample.content /\
  ContentBasedFilter.tfidf_vectorizer self' = Some (mkTfidf 5000 "english" (1, 2)%Z).
Proof.
  intro self'.
  apply (failed_content_train_state (E := Sample.empty_vocabulary_externals)
           Sample.content self' [] (ValueError "empty vocabulary")).
  reflexivity.
Defined.

(** * The hybrid answer *)

Lemma NoDup_prefix {A : Type} (l1 l2 : list A) : NoDup (l1 ++ l2) -> NoDup l1.
Proof. apply NoDup_app_remove_r. Qed.

Lemma sort_desc_descending {A : Type} (key : A -> Q) (l : list A) :
  StronglySorted (fun x y => key y <= key x) (sort_desc key l).
Proof.
  apply (desc_then_sorted_weaken key (fun _ _ => True)).
  apply sort_desc_stable.
  induction l as [|x l IH]; constructor; [assumption|].
  apply Forall_forall. intros; exact I.
Qed.

Section HybridAnswer.
Import HybridRecommendationEngine.

Section Requests.
Context {E : Externals}.

(** X19. The answer of the hybrid engine lists every item once, also an
    item that several sources proposed, in descending order of combined
    score. *)
Theorem hybrid_answer_ranked (engine : t) (user : string) (profile : UserProfile)
        (n : Z) (recs : list HybridRec) :
  get_recommendations engine user profile n = Ok recs ->
  NoDup (map hybrid_book_id recs) /\
  StronglySorted (fun x y => combined_score y <= combined_score x) recs.
Proof.
  unfold get_recommendations.
  destruct (CollaborativeFilter.get_user_recommendations _ user (n * 2)%Z)
    as [collab_recs|e]; simpl; [|discriminate].
  destruct (ContentBasedFilter.get_content_recommendations _ profile (n * 2)%Z)
    as [content_recs|e]; simpl; [|discriminate].
  destruct (get_social_recommendations profile (n * 2)%Z)
    as [social_recs|e]; simpl; [|discriminate].
  intro H. injection H as <-.
  set (combined := combine_recommendations collab_recs content_recs social_recs).
  split.
  - destruct (slice_to_prefix n combined) as [rest Hrest].
    assert (Hnd : NoDup (map hybrid_book_id combined)).
    { apply (Permutation_NoDup
               (Permutation_sym (combined_ids collab_recs content_recs social_recs))).
      apply keep_first_NoDup. }
    rewrite Hrest, map_app in Hnd. now apply NoDup_prefix in Hnd.
  - apply slice_to_sorted. apply sort_desc_descending.
Qed.

(** X20. The hybrid engine answers only when both filters are trained: an
    answer implies a training matrix with a user similarity in the
    collaborative filter and a catalog in the content filter. When the
    collaborative filter is untrained the request fails with its
    [ValueError], whatever the state of the content filter. *)
Theorem hybrid_needs_trained_filters (engine : t) (user : string)
        (profile : UserProfile) (n : Z) :
  (forall recs,
      get_recommendations engine user profile n = Ok recs ->
      CollaborativeFilter.user_item_matrix (collaborative_filter engine) <> None /\
      CollaborativeFilter.user_similarity (collaborative_filter engine) <> None /\
      ContentBasedFilter.book_features (content_filter engine) <> None) /\
  (CollaborativeFilter.user_item_matrix (collaborative_filter engine) = None ->
   get_recommendations engine user profile n
   = Raise (ValueError "Model not trained yet")).
Proof.
  split.
  - intro recs. unfold get_recommendations.
    destruct (CollaborativeFilter.get_user_recommendations _ user (n * 2)%Z)
      as [collab_recs|e] eqn:Hcollab; simpl; [|discriminate].
    destruct (ContentBasedFilter.get_content_recommendations _ profile (n * 2)%Z)
      as [content_recs|e] eqn:Hcontent; simpl; [|discriminate].
    intros _.
    destruct (get_user_recommendations_inv _ _ _ _ Hcollab)
      as [m [idx [row [similar [full [Hm [_ [_ [Hs _]]]]]]]]].
    destruct (get_content_recommendations_inv _ _ _ _ Hcontent)
      as [bf [_ [Hbf _]]].
    rewrite Hm, Hbf. repeat split; try discriminate.
    unfold CollaborativeFilter.get_similar_users in Hs.
    destruct (CollaborativeFilter.user_similarity _); discriminate.
  - intro Hnone. unfold get_recommendations,
      CollaborativeFilter.get_user_recommendations. now rewrite Hnone.
Qed.

End Requests.
End HybridAnswer.

Lemma hybrid_answer_ranked_witness :
  exists recs,
    HybridRecommendationEngine.get_recommendations (E := Sample.externals)
      Sample.engine "u1" Sample.romance_reader 2 = Ok recs /\
    map hybrid_book_id recs = ["i3"; "i1"] /\
    NoDup (map hybrid_book_id recs) /\
    StronglySorted (fun x y => combined_score y <= combined_score x) recs.
Proof.
  eexists. split; [vm_compute; reflexivity|]. split; [reflexivity|].
  apply (hybrid_answer_ranked (E := Sample.externals) Sample.engine "u1"
           Sample.romance_reader 2).
  vm_compute. reflexivity.
Defined.

Lemma hybrid_needs_trained_filters_witness :
  CollaborativeFilter.user_item_matrix
    (HybridRecommendationEngine.collaborative_filter Sample.engine) <> None /\
  CollaborativeFilter.user_similarity
    (HybridRecommendationEngine.collaborative_filter Sample.engine) <> None /\
  ContentBasedFilter.book_features
    (HybridRecommendationEngine.content_filter Sample.engine) <> None.
Proof.
  eapply (proj1 (hybrid_needs_trained_filters (E := Sample.externals)
                   Sample.engine "u1" Sample.romance_reader 2)).
  vm_compute. reflexivity.
Defined.

(** * Neighbours without a rating *)

Section OwnRow.
Import CollaborativeFilter.

Lemma predict_loop_drop (self : t) (m : DataFrame) (book : string)
      (keep : nat * Q -> bool) (similar : list (nat * Q)) (sums : Q * Q) :
  user_item_matrix self = Some m ->
  (forall nb, In nb similar -> keep nb = false ->
              exists r, neighbour_rating m book nb = Ok r /\ r <= 0) ->
  for_each (predict_step self book) (filter keep similar) sums
  = for_each (predict_step self book) similar sums.
Proof.
  intros Hm. revert sums. induction similar as [|nb similar IH]; intros sums Hdrop;
    simpl; [reflexivity|].
  destruct (keep nb) eqn:Hk; simpl.
  - destruct (predict_step self book sums nb); simpl; [|reflexivity].
    apply IH. intros nb' Hin. apply Hdrop. now right.
  - destruct (Hdrop nb (or_introl eq_refl) Hk) as [r [Hr Hle]].
    unfold predict_step at 2. destruct sums as [w s], nb as [i sim].
    rewrite Hm. unfold neighbour_rating in Hr. simpl in Hr.
    destruct (iloc m i) as [row|e]; simpl in Hr |- *; [|discriminate].
    rewrite Hr. simpl.
    assert (Hpos : Qlt_bool 0 r = false) by now apply Qlt_bool_false.
    rewrite Hpos. simpl. apply IH. intros nb' Hin. apply Hdrop. now right.
Qed.

(** X21. For a book the user has no positive rating for (every recommended
    book is one), the user's own row adds nothing to the prediction: the
    predicted rating is the same with the user's own position removed from
    the neighbours. *)
Theorem own_row_never_counts (self : t) (m : DataFrame) (idx idx' : nat)
        (book : string) (similar : list (nat * Q)) (r : Q) :
  user_item_matrix self = Some m ->
  neighbour_rating m book (idx, 0) = Ok r ->
  r <= 0 ->
  predict_rating self idx' book
    (filter (fun nb => negb (Nat.eqb (fst nb) idx)) similar)
  = predict_rating self idx' book similar.
Proof.
  intros Hm Hr Hle. unfold predict_rating.
  rewrite (predict_loop_drop self m book _ similar (0, 0) Hm); [reflexivity|].
  intros [i sim] _ Hk. apply negb_false_iff, Nat.eqb_eq in Hk. simpl in Hk.
  subst i. exists r. split; [exact Hr|exact Hle].
Qed.

End OwnRow.

Lemma own_row_never_counts_witness :
  CollaborativeFilter.predict_rating Sample.tied_collab 0 "i2"
    (filter (fun nb => negb (Nat.eqb (fst nb) 0)) [(0%nat, 25); (1%nat, 20)])
  = CollaborativeFilter.predict_rating Sample.tied_collab 0 "i2"
      [(0%nat, 25); (1%nat, 20)].
Proof.
  apply (own_row_never_counts Sample.tied_collab
           (mkFrame ["u1"; "u2"] ["i1"; "i2"; "i3"] [[5; 0; 0]; [4; 3; 3]])
           0 0 "i2" [(0%nat, 25); (1%nat, 20)] 0).
  - reflexivity.
  - reflexivity.
  - discriminate.
Defined.
